(** * get_evpn2.py: gNMI retrieval, record extraction and EVPN/VPN join

    A shallow embedding of [py-scripts/get_evpn2.py]: the [SrlDevice] class
    ([_get_gnmi_info], [get_bgp_evpn_info], [get_bgp_vpn_info]) and the part
    of [main] that builds the rows of the report (lines 196-209).

    Python values are the JSON values that the gNMI client hands back;
    Python exceptions are an explicit error type; the process state touched
    by the code (the level of the 'pygnmi' logger, the standard output, the
    gNMI sessions opened) is threaded through a state-and-error monad. *)

From Stdlib Require Import ZArith String Ascii Bool Lia List DecimalString.
Import ListNotations.
Local Open Scope string_scope.
Local Open Scope Z_scope.
Local Open Scope list_scope.
Set Warnings "-register-all".

(** ** Python values and exceptions *)

(** The values found in a decoded gNMI response: [None], booleans, integers,
    strings, lists and dictionaries.  A dictionary keeps its items in
    insertion order and its keys are distinct strings. *)
Inductive pyval : Type :=
  | PNone : pyval
  | PBool : bool -> pyval
  | PInt : Z -> pyval
  | PStr : string -> pyval
  | PList : list pyval -> pyval
  | PDict : list (string * pyval) -> pyval.

(** Instances of Python's [Exception] class.  [KeyError] carries the missing
    key; [OtherException] stands for whatever else the transport library
    raises (its argument is the class name). *)
Inductive exn : Type :=
  | KeyError : pyval -> exn
  | TypeError : exn
  | AttributeError : exn
  | OtherException : string -> exn.

Definition result (A : Type) : Type := (exn + A)%type.

(** Evaluation of an expression from left to right: the first exception
    raised is the result. *)
Definition rbind {A B} (r : result A) (f : A -> result B) : result B :=
  match r with
  | inl e => inl e
  | inr a => f a
  end.

Notation "x <-? r ;; k" := (rbind r (fun x => k))
  (at level 61, r at next level, right associativity).

(** [d.get(k)] on the items of a dictionary. *)
Fixpoint dict_get (d : list (string * pyval)) (k : string) : option pyval :=
  match d with
  | [] => None
  | (k', v) :: d' => if String.eqb k' k then Some v else dict_get d' k
  end.

(** [v[k]] for a string subscript [k]: a dictionary is looked up and raises
    [KeyError] on a missing key; a list or a string wants an integer
    subscript, and the other values are not subscriptable. *)
Definition py_getitem (v : pyval) (k : string) : result pyval :=
  match v with
  | PDict d => match dict_get d k with
               | Some x => inr x
               | None => inl (KeyError (PStr k))
               end
  | _ => inl TypeError
  end.

(** [s1 in s2] for two strings: [s1] occurs in [s2]. *)
Definition substringb (s1 s2 : string) : bool :=
  match String.index 0 s1 s2 with
  | Some _ => true
  | None => false
  end.

(** [x == k] where [k] is a string. *)
Definition py_eq_str (x : pyval) (k : string) : bool :=
  match x with
  | PStr s => String.eqb s k
  | _ => false
  end.

(** [k in v] for a string [k]: key membership in a dictionary, element
    membership in a list, substring test on a string; [TypeError] on a value
    that is not a container. *)
Definition py_contains (k : string) (v : pyval) : result bool :=
  match v with
  | PDict d => inr (match dict_get d k with Some _ => true | None => false end)
  | PList l => inr (existsb (fun x => py_eq_str x k) l)
  | PStr s => inr (substringb k s)
  | _ => inl TypeError
  end.

(** The one-character strings of a string, as [for c in s] yields them. *)
Fixpoint chars (s : string) : list pyval :=
  match s with
  | EmptyString => []
  | String c s' => PStr (String c EmptyString) :: chars s'
  end.

(** The elements [for x in v] runs through: the items of a list, the keys of
    a dictionary, the characters of a string; [TypeError] otherwise. *)
Definition py_iter (v : pyval) : result (list pyval) :=
  match v with
  | PList l => inr l
  | PDict d => inr (map (fun kv => PStr (fst kv)) d)
  | PStr s => inr (chars s)
  | _ => inl TypeError
  end.

(** [v.get(k, {})]: only dictionaries have a [get] method. *)
Definition py_get_or_empty (v : pyval) (k : string) : result pyval :=
  match v with
  | PDict d => inr (match dict_get d k with Some x => x | None => PDict [] end)
  | _ => inl AttributeError
  end.

(** [v.get(k)]: the value under [k], or [None]. *)
Definition py_get (v : pyval) (k : string) : result pyval :=
  match v with
  | PDict d => inr (match dict_get d k with Some x => x | None => PNone end)
  | _ => inl AttributeError
  end.

(** Whether a value can be a dictionary key: lists and dictionaries are
    unhashable. *)
Definition hashable (v : pyval) : bool :=
  match v with
  | PList _ | PDict _ => false
  | _ => true
  end.

(** Equality of two hashable values as dictionary keys: [True] and [False]
    are the integers 1 and 0. *)
Definition key_eqb (a b : pyval) : bool :=
  match a, b with
  | PNone, PNone => true
  | PStr s, PStr t => String.eqb s t
  | PInt x, PInt y => Z.eqb x y
  | PBool x, PBool y => Bool.eqb x y
  | PInt x, PBool y => Z.eqb x (if y then 1 else 0)
  | PBool x, PInt y => Z.eqb (if x then 1 else 0) y
  | _, _ => false
  end.

(** ** Process state and the state-and-error monad *)

(** The keyword arguments of [gNMIclient(...)]. *)
Record session : Type := mkSession {
  sess_target : string * Z;
  sess_username : string;
  sess_password : string;
  sess_skip_verify : bool
}.

(** One [with gNMIclient(...) as gc: gc.get(path=...)] block, with the level
    of the 'pygnmi' logger in force while it ran. *)
Record gnmi_call : Type := mkCall {
  call_session : session;
  call_path : list string;
  call_level : Z
}.

(** What such a block does: the connection or the get raises, the get
    returns, or the get returns and leaving the block raises. *)
Inductive gnmi_outcome : Type :=
  | Raised : exn -> gnmi_outcome
  | Returned : pyval -> gnmi_outcome
  | ReturnedThenRaised : pyval -> exn -> gnmi_outcome.

(** The lines the code prints; the exception is the value interpolated in
    the f-string. *)
Inductive output : Type :=
  | FailedToConnect : exn -> output
      (* "Failed to connect to router or fetch data: {e}" *)
  | MissingKey : exn -> output
      (* "Failed to process data due to missing key: {ke}" *)
  | UnexpectedError : exn -> output.
      (* "Unexpected error occurred while processing data: {e}" *)

Record state : Type := mkState {
  pygnmi_level : Z;          (* logging.getLogger('pygnmi').level *)
  stdout : list output;      (* lines printed so far, oldest first *)
  calls : list gnmi_call     (* gNMI calls made so far, oldest first *)
}.

(** A computation over a state [S] that returns an [A] or raises. *)
Definition M (S A : Type) : Type := S -> result A * S.

Definition ret {S A} (a : A) : M S A := fun s => (inr a, s).

Definition bind {S A B} (m : M S A) (f : A -> M S B) : M S B :=
  fun s => match m s with
           | (inr a, s') => f a s'
           | (inl e, s') => (inl e, s')
           end.

Definition lift {S A} (r : result A) : M S A := fun s => (r, s).

Definition modify {S} (f : S -> S) : M S unit := fun s => (inr tt, f s).

Declare Scope monad_scope.
Delimit Scope monad_scope with monad.
Notation "x <- m ;; k" := (bind m (fun x => k))
  (at level 61, m at next level, right associativity) : monad_scope.
Notation "m ;;; k" := (bind m (fun _ => k))
  (at level 61, right associativity) : monad_scope.
Local Open Scope monad_scope.

(** [for x in l: body x]; an exception raised by the body leaves the loop. *)
Fixpoint for_each {S A} (l : list A) (body : A -> M S unit) : M S unit :=
  match l with
  | [] => ret tt
  | x :: l' => body x ;;; for_each l' body
  end.

(** [xs.append(x)] on a local list held as the state. *)
Definition append {A} (x : A) : M (list A) unit := modify (fun xs => xs ++ [x]).

(** ** Constants of the module *)

Definition LOGGING_LEVEL_CRITICAL : Z := 50.
Definition LOGGING_LEVEL_WARNING : Z := 30.

Definition DEFAULT_SKIP_VERIFY : bool := true.
Definition DEFAULT_MODEL : string := "ixrd3".
Definition DEFAULT_RELEASE : string := "21.6.4".

Definition setLevel (l : Z) : M state unit :=
  modify (fun st => mkState l (stdout st) (calls st)).

Definition print (o : output) : M state unit :=
  modify (fun st => mkState (pygnmi_level st) (stdout st ++ [o]) (calls st)).

(** Runs a loop that only touches a local variable, from its initial value:
    the value of the variable when the loop ends, or the exception that
    left it. *)
Definition with_local {S L} (init : L) (m : M L unit) : M S L :=
  fun s => match m init with
           | (inr _, l) => (inr l, s)
           | (inl e, _) => (inl e, s)
           end.

(** [ys = []; for x in l: ys.append(f x)] where [f] runs in the outer
    state. *)
Fixpoint map_M {S A B} (f : A -> M S B) (l : list A) : M S (list B) :=
  match l with
  | [] => ret []
  | x :: l' => y <- f x ;; ys <- map_M f l' ;; ret (y :: ys)
  end.

(** ** The SrlDevice class *)

Module BgpEvpn.
Record t : Type := mk {
  network_instance : pyval;
  id : pyval;
  admin_state : pyval;
  vxlan_interface : pyval;
  evi : pyval;
  ecmp : pyval;
  oper_state : pyval
}.
End BgpEvpn.

Module BgpVpn.
Record t : Type := mk {
  network_instance : pyval;
  id : pyval;
  rd : pyval;
  export_rt : pyval;
  import_rt : pyval
}.
End BgpVpn.

(** The attributes of an [SrlDevice]; [bgp_evpn] and [bgp_vpn] are assigned
    last by the constructor and are empty until then. *)
Record SrlDevice : Type := mkSrlDevice {
  router : string;
  port : Z;
  password : string;
  username : string;
  skip_verify : bool;
  model : string;
  release : string;
  bgp_evpn : list BgpEvpn.t;
  bgp_vpn : list BgpVpn.t
}.

(** ** Dictionaries keyed by values (lines 202-209 of [main]) *)

(** [d[k] = v]: the value under an equal key is replaced where it stands
    (the key already there is kept), a new key goes to the end. *)
Fixpoint dict_set {V} (d : list (pyval * V)) (k : pyval) (v : V)
  : list (pyval * V) :=
  match d with
  | [] => [(k, v)]
  | (k', v') :: d' =>
      if key_eqb k' k then (k', v) :: d' else (k', v') :: dict_set d' k v
  end.

(** [d[k]] lookup, [None] when [k] is not a key. *)
Fixpoint dict_lookup {V} (d : list (pyval * V)) (k : pyval) : option V :=
  match d with
  | [] => None
  | (k', v) :: d' => if key_eqb k' k then Some v else dict_lookup d' k
  end.

(** [k in d]. *)
Definition dict_mem {V} (d : list (pyval * V)) (k : pyval) : bool :=
  match dict_lookup d k with
  | Some _ => true
  | None => false
  end.

(** [d.keys()], in insertion order. *)
Definition dict_keys {V} (d : list (pyval * V)) : list pyval := map fst d.

(** [{key(item): item for item in items}], continued from the dictionary
    [d]; an unhashable key raises [TypeError]. *)
Fixpoint dict_comprehension_from {V} (key : V -> pyval)
    (d : list (pyval * V)) (items : list V) : result (list (pyval * V)) :=
  match items with
  | [] => inr d
  | item :: items' =>
      if hashable (key item)
      then dict_comprehension_from key (dict_set d (key item) item) items'
      else inl TypeError
  end.

Definition dict_comprehension {V} (key : V -> pyval) (items : list V)
  : result (list (pyval * V)) :=
  dict_comprehension_from key [] items.

(** [d[k]] as an expression: [KeyError] when [k] is not a key. *)
Definition dict_getitem {V} (d : list (pyval * V)) (k : pyval) : result V :=
  match dict_lookup d k with
  | Some v => inr v
  | None => inl (KeyError k)
  end.

(** A row of the report is a list of eleven values; row[1] is the network
    instance. *)
Definition row : Type := list pyval.

(** Lines 206-209: the row appended for a key of both dictionaries. *)
Definition joined_row (device : SrlDevice) (key : pyval)
    (e : BgpEvpn.t) (v : BgpVpn.t) : row :=
  [PStr (router device); key; BgpEvpn.id e; BgpEvpn.admin_state e;
   BgpEvpn.vxlan_interface e; BgpEvpn.evi e; BgpEvpn.ecmp e;
   BgpEvpn.oper_state e; BgpVpn.rd v; BgpVpn.import_rt v;
   BgpVpn.export_rt v].

(** Lines 202-209: the body of the loop over the devices. *)
Definition device_rows (device : SrlDevice) : M (list row) unit :=
  bgp_Evpn_dict <- lift (dict_comprehension BgpEvpn.network_instance (bgp_evpn device)) ;;
  bgp_Vpn_dict <- lift (dict_comprehension BgpVpn.network_instance (bgp_vpn device)) ;;
  for_each (dict_keys bgp_Evpn_dict) (fun key =>
    if dict_mem bgp_Vpn_dict key then
      e <- lift (dict_getitem bgp_Evpn_dict key) ;;
      v <- lift (dict_getitem bgp_Vpn_dict key) ;;
      append (joined_row device key e v)
    else ret tt).

(** The network: what the [n]-th gNMI call of the run does. *)
Definition network : Type := nat -> gnmi_call -> gnmi_outcome.

Section Program.

Variable net : network.

(** [with gNMIclient(...) as gc: gc.get(path=gnmi_path)]. *)
Definition gNMIclient_get (s : session) (gnmi_path : list string)
  : M state gnmi_outcome :=
  fun st =>
    let c := mkCall s gnmi_path (pygnmi_level st) in
    (inr (net (length (calls st)) c),
     mkState (pygnmi_level st) (stdout st) (calls st ++ [c])).

(** Lines 115-118: one update of a notification. *)
Definition decode_update (update : pyval) : M (list pyval) unit :=
  val <- lift (py_getitem update "val") ;;
  present <- lift (py_contains "srl_nokia-network-instance:network-instance" val) ;;
  if (present : bool) then
    val' <- lift (py_getitem update "val") ;;
    network_instances <-
      lift (py_getitem val' "srl_nokia-network-instance:network-instance") ;;
    l <- lift (py_iter network_instances) ;;
    for_each l append
  else ret tt.

(** Lines 114-118: one notification of the response. *)
Definition decode_notification (notification : pyval) : M (list pyval) unit :=
  updates <- lift (py_getitem notification "update") ;;
  us <- lift (py_iter updates) ;;
  for_each us decode_update.

(** Lines 113-118: the loops over a response that is not [None]. *)
Definition decode (result : pyval) : M (list pyval) unit :=
  notifications <- lift (py_getitem result "notification") ;;
  ns <- lift (py_iter notifications) ;;
  for_each ns decode_notification.

Definition _get_gnmi_info (self : SrlDevice) (gnmi_path : list string)
  : M state (list pyval) :=
  let info := [] in
  setLevel LOGGING_LEVEL_CRITICAL ;;;
  out <- gNMIclient_get
           (mkSession (router self, port self) (username self) (password self) true)
           gnmi_path ;;
  result <- match out with
            | Returned v => ret v
            | Raised e => print (FailedToConnect e) ;;; ret PNone
            | ReturnedThenRaised v e => print (FailedToConnect e) ;;; ret v
            end ;;
  setLevel LOGGING_LEVEL_WARNING ;;;
  match result with
  | PNone => ret info
  | _ =>
      match decode result info with
      | (inr _, info') => ret info'
      | (inl (KeyError k), info') => print (MissingKey (KeyError k)) ;;; ret info'
      | (inl e, info') => print (UnexpectedError e) ;;; ret info'
      end
  end.

(** Lines 139-142: one bgp-instance of a network instance. *)
Definition evpn_bgp_instance (network_instance bgp_instance : pyval)
  : M (list BgpEvpn.t) unit :=
  present <- lift (py_contains "oper-state" bgp_instance) ;;
  if negb present then
    a1 <- lift (py_getitem network_instance "name") ;;
    a2 <- lift (py_getitem bgp_instance "id") ;;
    a3 <- lift (py_getitem bgp_instance "admin-state") ;;
    a4 <- lift (py_getitem bgp_instance "vxlan-interface") ;;
    a5 <- lift (py_getitem bgp_instance "evi") ;;
    a6 <- lift (py_getitem bgp_instance "ecmp") ;;
    append (BgpEvpn.mk a1 a2 a3 a4 a5 a6 (PStr "no state"))
  else
    a1 <- lift (py_getitem network_instance "name") ;;
    a2 <- lift (py_getitem bgp_instance "id") ;;
    a3 <- lift (py_getitem bgp_instance "admin-state") ;;
    a4 <- lift (py_getitem bgp_instance "vxlan-interface") ;;
    a5 <- lift (py_getitem bgp_instance "evi") ;;
    a6 <- lift (py_getitem bgp_instance "ecmp") ;;
    a7 <- lift (py_getitem bgp_instance "oper-state") ;;
    append (BgpEvpn.mk a1 a2 a3 a4 a5 a6 a7).

(** Line 138: the bgp-instances a network instance is iterated over. *)
Definition evpn_bgp_instances (network_instance : pyval) : result (list pyval) :=
  protocols <-? py_getitem network_instance "protocols" ;;
  evpn <-? py_getitem protocols "bgp-evpn" ;;
  instances <-? py_getitem evpn "srl_nokia-bgp-evpn:bgp-instance" ;;
  py_iter instances.

(** Lines 137-142: the records of the fetched network instances. *)
Definition evpn_records (info : list pyval) : M (list BgpEvpn.t) unit :=
  for_each info (fun network_instance =>
    l <- lift (evpn_bgp_instances network_instance) ;;
    for_each l (evpn_bgp_instance network_instance)).

Definition get_bgp_evpn_info (self : SrlDevice) : M state (list BgpEvpn.t) :=
  info <- _get_gnmi_info self ["network-instance/protocols/bgp-evpn/bgp-instance"] ;;
  with_local [] (evpn_records info).

(** Line 156: one bgp-instance of a network instance. *)
Definition vpn_bgp_instance (network_instance bgp_instance : pyval)
  : M (list BgpVpn.t) unit :=
  a1 <- lift (py_getitem network_instance "name") ;;
  a2 <- lift (py_getitem bgp_instance "id") ;;
  d3 <- lift (py_get_or_empty bgp_instance "route-distinguisher") ;;
  a3 <- lift (py_get d3 "rd") ;;
  d4 <- lift (py_get_or_empty bgp_instance "route-target") ;;
  a4 <- lift (py_get d4 "export-rt") ;;
  d5 <- lift (py_get_or_empty bgp_instance "route-target") ;;
  a5 <- lift (py_get d5 "import-rt") ;;
  append (BgpVpn.mk a1 a2 a3 a4 a5).

(** Line 155: the bgp-instances a network instance is iterated over. *)
Definition vpn_bgp_instances (network_instance : pyval) : result (list pyval) :=
  protocols <-? py_getitem network_instance "protocols" ;;
  vpn <-? py_getitem protocols "srl_nokia-bgp-vpn:bgp-vpn" ;;
  instances <-? py_getitem vpn "bgp-instance" ;;
  py_iter instances.

(** Lines 154-156: the records of the fetched network instances. *)
Definition vpn_records (info : list pyval) : M (list BgpVpn.t) unit :=
  for_each info (fun network_instance =>
    l <- lift (vpn_bgp_instances network_instance) ;;
    for_each l (vpn_bgp_instance network_instance)).

Definition get_bgp_vpn_info (self : SrlDevice) : M state (list BgpVpn.t) :=
  info <- _get_gnmi_info self ["network-instance/protocols/bgp-vpn/bgp-instance"] ;;
  with_local [] (vpn_records info).

(** [SrlDevice.__init__]. *)
Definition SrlDevice_init (router : string) (port : Z) (model release : string)
    (username password : string) (skip_verify : bool) : M state SrlDevice :=
  let self := mkSrlDevice router port password username skip_verify
                          model release [] [] in
  evpn <- get_bgp_evpn_info self ;;
  let self := mkSrlDevice router port password username skip_verify
                          model release evpn [] in
  vpn <- get_bgp_vpn_info self ;;
  ret (mkSrlDevice router port password username skip_verify
                   model release evpn vpn).

(** Lines 196-209 of [main]: the devices are constructed one after the other
    (each construction queries the device twice), then the rows are built.
    [routers], [port], [username], [password] and [skip_verify] are the
    values read from the configuration file. *)
Definition main_rows (routers : list string) (port : Z)
    (username password : string) (skip_verify : bool) : M state (list row) :=
  srl_devices <- map_M (fun router =>
                   SrlDevice_init router port DEFAULT_MODEL DEFAULT_RELEASE
                                  username password skip_verify) routers ;;
  with_local [] (for_each srl_devices device_rows).

End Program.

(** ** highlight_alternate_groups (lines 161-172) *)

(** [a == b] on values: [True] and [False] are the integers 1 and 0, lists
    are compared element by element, dictionaries item by item whatever the
    order of the items. *)
Fixpoint py_eqb (a b : pyval) {struct a} : bool :=
  match a, b with
  | PNone, PNone => true
  | PStr s, PStr t => String.eqb s t
  | PInt x, PInt y => Z.eqb x y
  | PBool x, PBool y => Bool.eqb x y
  | PInt x, PBool y => Z.eqb x (if y then 1 else 0)
  | PBool x, PInt y => Z.eqb (if x then 1 else 0) y
  | PList l, PList m =>
      (fix all2 (l m : list pyval) {struct l} : bool :=
         match l, m with
         | [], [] => true
         | x :: l', y :: m' => py_eqb x y && all2 l' m'
         | _, _ => false
         end) l m
  | PDict d, PDict e =>
      Nat.eqb (length d) (length e) &&
      (fix all (d : list (string * pyval)) {struct d} : bool :=
         match d with
         | [] => true
         | (k, v) :: d' =>
             match dict_get e k with
             | Some w => py_eqb v w
             | None => false
             end && all d'
         end) d
  | _, _ => false
  end.

Definition IndexError : exn := OtherException "IndexError".

(** The position an integer subscript denotes in a list of [n] elements;
    a negative subscript counts from the end. *)
Definition list_position (n : nat) (i : Z) : option nat :=
  if (0 <=? i) && (i <? Z.of_nat n) then Some (Z.to_nat i)
  else if (- Z.of_nat n <=? i) && (i <? 0) then Some (Z.to_nat (Z.of_nat n + i))
  else None.

(** [l[i]] for an integer subscript. *)
Definition list_getitem (l : list pyval) (i : Z) : result pyval :=
  match list_position (length l) i with
  | Some p => inr (nth p l PNone)
  | None => inl IndexError
  end.

Fixpoint replace_nth (p : nat) (x : pyval) (l : list pyval) : list pyval :=
  match l, p with
  | [], _ => []
  | _ :: l', O => x :: l'
  | y :: l', S p' => y :: replace_nth p' x l'
  end.

(** [l[i] = x] for an integer subscript; the list after the assignment. *)
Definition list_setitem (l : list pyval) (i : Z) (x : pyval)
  : result (list pyval) :=
  match list_position (length l) i with
  | Some p => inr (replace_nth p x l)
  | None => inl IndexError
  end.

(** [f"\033[43m{text}\033[0m"]. *)
Definition highlighted (text : string) : string :=
  String "027" (String.append "[43m"
    (String.append text (String "027" "[0m"))).

Section Highlight.

(** The text Python prints for a list or a dictionary is left open. *)
Variable py_repr : pyval -> string.

(** [str(v)], the text an f-string puts for [v]. *)
Definition py_str (v : pyval) : string :=
  match v with
  | PNone => "None"
  | PBool true => "True"
  | PBool false => "False"
  | PInt z => NilZero.string_of_int (Z.to_int z)
  | PStr s => s
  | PList _ | PDict _ => py_repr v
  end.

(** Lines 165-171: the body of the loop, on the local variables
    [previous_value] and [color_switch]; the row after the iteration.  The
    rows of the list are taken to be different objects, as [main] builds
    them. *)
Definition highlight_row (column_to_check : Z) (row : list pyval)
  : M (pyval * bool) (list pyval) :=
  fun '(previous_value, color_switch) =>
    let toggled : result bool :=
      match previous_value with
      | PNone => inr color_switch
      | _ =>
          v <-? list_getitem row column_to_check ;;
          inr (if py_eqb previous_value v then color_switch
               else negb color_switch)
      end in
    match toggled with
    | inl e => (inl e, (previous_value, color_switch))
    | inr color_switch =>
        let painted : result (list pyval) :=
          if color_switch then
            v <-? list_getitem row column_to_check ;;
            list_setitem row column_to_check (PStr (highlighted (py_str v)))
          else inr row in
        match painted with
        | inl e => (inl e, (previous_value, color_switch))
        | inr row =>
            match list_getitem row column_to_check with
            | inl e => (inl e, (previous_value, color_switch))
            | inr v => (inr row, (v, color_switch))
            end
        end
    end.

(** The rows as the function returns them, or the exception it raises. *)
Definition highlight_alternate_groups (rows : list (list pyval))
    (column_to_check : Z) : result (list (list pyval)) :=
  fst (map_M (highlight_row column_to_check) rows (PNone, false)).

End Highlight.

(** ** Sample devices and responses *)

Module Sample.

(** A bgp-instance of the EVPN branch, with or without 'oper-state'. *)
Definition evpn_fields : list (string * pyval) :=
  [("id", PInt 1); ("admin-state", PStr "enable");
   ("vxlan-interface", PStr "vxlan1.1"); ("evi", PInt 10);
   ("ecmp", PInt 2)].

Definition evpn_up : pyval :=
  PDict (evpn_fields ++ [("oper-state", PStr "up")]).

Definition evpn_no_oper : pyval := PDict evpn_fields.

Definition evpn_no_evi : pyval :=
  PDict [("id", PInt 1); ("admin-state", PStr "enable");
         ("vxlan-interface", PStr "vxlan1.1"); ("ecmp", PInt 2)].

(** A bgp-instance of the VPN branch without route distinguisher. *)
Definition vpn_fields : list (string * pyval) :=
  [("id", PInt 1);
   ("route-target", PDict [("export-rt", PStr "target:65000:1");
                           ("import-rt", PStr "target:65000:2")])].

Definition evpn_instance (name : string) (instances : list pyval) : pyval :=
  PDict [("name", PStr name);
         ("protocols",
          PDict [("bgp-evpn",
                  PDict [("srl_nokia-bgp-evpn:bgp-instance",
                          PList instances)])])].

Definition vpn_instance (name : string) (instances : list pyval) : pyval :=
  PDict [("name", PStr name);
         ("protocols",
          PDict [("srl_nokia-bgp-vpn:bgp-vpn",
                  PDict [("bgp-instance", PList instances)])])].

Definition notification (network_instances : list pyval) : pyval :=
  PDict [("update",
          PList [PDict [("path", PStr "network-instance");
                        ("val",
                         PDict [("srl_nokia-network-instance:network-instance",
                                 PList network_instances)])]])].

Definition response (notifications : list pyval) : pyval :=
  PDict [("notification", PList notifications)].

Definition is_evpn_path (c : gnmi_call) : bool :=
  match call_path c with
  | [p] => String.eqb p "network-instance/protocols/bgp-evpn/bgp-instance"
  | _ => false
  end.

Definition router_is (c : gnmi_call) (r : string) : bool :=
  String.eqb (fst (sess_target (call_session c))) r.

Definition evpn_response : pyval :=
  response [notification [evpn_instance "default" [evpn_no_oper];
                          evpn_instance "mgmt" [evpn_up]]].

Definition vpn_response : pyval :=
  response [notification [vpn_instance "default" [PDict vpn_fields];
                          vpn_instance "vrf1" [PDict vpn_fields]]].

(** Every device answers both paths. *)
Definition net_ok : network := fun _ c =>
  if is_evpn_path c then Returned evpn_response else Returned vpn_response.

(** leaf2 cannot be reached. *)
Definition net_leaf2_down : network := fun n c =>
  if router_is c "leaf2" then Raised (OtherException "FutureTimeoutError")
  else net_ok n c.

(** An EVPN bgp-instance of leaf2 has no 'evi'. *)
Definition net_leaf2_no_evi : network := fun n c =>
  if router_is c "leaf2" && is_evpn_path c
  then Returned (response [notification
                             [evpn_instance "default" [evpn_no_evi]]])
  else net_ok n c.

(** The second notification of every response has no 'update'. *)
Definition net_truncated : network := fun _ _ =>
  Returned (response [notification [evpn_instance "default" [evpn_up]];
                      PDict [];
                      notification [evpn_instance "mgmt" [evpn_up]]]).

(** The process before the first call: the 'pygnmi' logger has no level
    of its own (NOTSET). *)
Definition st0 : state := mkState 0 [] [].

Definition leaf1 : SrlDevice :=
  mkSrlDevice "leaf1" 57400 "secret" "admin" true
              DEFAULT_MODEL DEFAULT_RELEASE [] [].

Definition evpn_record (name : string) (id : Z) : BgpEvpn.t :=
  BgpEvpn.mk (PStr name) (PInt id) (PStr "enable") (PStr "vxlan1.1")
             (PInt 10) (PInt 2) (PStr "up").

Definition vpn_record (name : string) (id : Z) : BgpVpn.t :=
  BgpVpn.mk (PStr name) (PInt id) PNone (PStr "target:65000:1")
            (PStr "target:65000:2").

(** A device with two EVPN records named "default". *)
Definition leaf_with_duplicates : SrlDevice :=
  mkSrlDevice "leaf1" 57400 "secret" "admin" true
              DEFAULT_MODEL DEFAULT_RELEASE
              [evpn_record "default" 1; evpn_record "mgmt" 1;
               evpn_record "default" 2]
              [vpn_record "default" 1; vpn_record "vrf1" 1].

(** The device constructed for leaf1 on the network where leaf2 cannot be
    reached, and the state after its construction. *)
Definition devices_before_leaf2 : list SrlDevice * state :=
  match map_M (fun router =>
                 SrlDevice_init net_leaf2_down router 57400 DEFAULT_MODEL
                                DEFAULT_RELEASE "admin" "secret" true)
              ["leaf1"] st0 with
  | (inr ds, st1) => (ds, st1)
  | (inl _, st1) => ([], st1)
  end.

End Sample.

(** ** Further samples *)

Module Examples.

(** A row of three cells with a text in the second. *)
Definition text_row (text : string) : list pyval :=
  [PStr "leaf1"; PStr text; PInt 1].

(** Two groups of rows, then a single row. *)
Definition grouped_rows : list (list pyval) :=
  [text_row "default"; text_row "default"; text_row "mgmt"; text_row "mgmt";
   text_row "vrf1"].

(** The text Python prints for a container is of no account here. *)
Definition no_repr (v : pyval) : string := "".

(** A VPN bgp-instance whose route distinguisher is null. *)
Definition vpn_null_rd : list (string * pyval) :=
  [("id", PInt 1); ("route-distinguisher", PNone)].

(** A device with an EVPN record whose name is a list. *)
Definition leaf_with_list_name : SrlDevice :=
  mkSrlDevice "leaf1" 57400 "secret" "admin" true
              DEFAULT_MODEL DEFAULT_RELEASE
              [BgpEvpn.mk (PList []) (PInt 1) (PStr "enable")
                          (PStr "vxlan1.1") (PInt 10) (PInt 2) (PStr "up")]
              [].

(** The VPN path of leaf2 holds a bgp-instance with a null route
    distinguisher. *)
Definition net_leaf2_null_rd : network := fun n c =>
  if Sample.router_is c "leaf2" && negb (Sample.is_evpn_path c)
  then Returned (Sample.response
                   [Sample.notification
                      [Sample.vpn_instance "default" [PDict vpn_null_rd]]])
  else Sample.net_ok n c.

End Examples.

(** ** Notions used to state the properties *)

(** The keys of a dictionary are hashable and pairwise different. *)
Fixpoint distinct_keys (ks : list pyval) : Prop :=
  match ks with
  | [] => True
  | k :: ks' =>
      hashable k = true /\
      existsb (fun k' => key_eqb k' k) ks' = false /\
      distinct_keys ks'
  end.

(** The dictionary a comprehension builds when no key is refused. *)
Definition dict_of {V} (key : V -> pyval) (d : list (pyval * V))
    (items : list V) : list (pyval * V) :=
  fold_left (fun d item => dict_set d (key item) item) items d.

(** The last item of a list, in source order, whose key equals [k]. *)
Definition last_named {V} (key : V -> pyval) (items : list V) (k : pyval)
  : option V :=
  find (fun item => key_eqb (key item) k) (rev items).

(** Every item of a list has a hashable key. *)
Definition hashable_names {V} (key : V -> pyval) (items : list V) : Prop :=
  Forall (fun item => hashable (key item) = true) items.

(** The network instance of a row, [row[1]]. *)
Definition row_instance (r : row) : pyval := nth 1 r PNone.

(** The rows of a device, from its two dictionaries and a list of keys. *)
Definition join_rows (device : SrlDevice) (de : list (pyval * BgpEvpn.t))
    (dv : list (pyval * BgpVpn.t)) (ks : list pyval) : list row :=
  flat_map (fun key =>
    match dict_lookup dv key, dict_lookup de key with
    | Some v, Some e => [joined_row device key e v]
    | _, _ => []
    end) ks.

(** The gNMI call [_get_gnmi_info] makes for a device and a path. *)
Definition fetch_call (self : SrlDevice) (gnmi_path : list string) : gnmi_call :=
  mkCall (mkSession (router self, port self) (username self) (password self)
                    true)
         gnmi_path LOGGING_LEVEL_CRITICAL.

(** What [_get_gnmi_info] returns and prints for a response of the get. *)
Definition decoded (result : pyval) : list pyval * list output :=
  match result with
  | PNone => ([], [])
  | _ =>
      match decode result [] with
      | (inr _, info) => (info, [])
      | (inl (KeyError k), info) => (info, [MissingKey (KeyError k)])
      | (inl e, info) => (info, [UnexpectedError e])
      end
  end.

(** What [_get_gnmi_info] returns and prints for an outcome of the call. *)
Definition fetched (out : gnmi_outcome) : list pyval * list output :=
  match out with
  | Raised e => ([], [FailedToConnect e])
  | Returned v => decoded v
  | ReturnedThenRaised v e =>
      (fst (decoded v), FailedToConnect e :: snd (decoded v))
  end.

(** The two paths queried. *)
Definition evpn_path : list string :=
  ["network-instance/protocols/bgp-evpn/bgp-instance"].
Definition vpn_path : list string :=
  ["network-instance/protocols/bgp-vpn/bgp-instance"].

(** The safe nested lookup as the specification words it: null when the
    outer field is absent, null when the inner field is absent from the
    outer one, the inner value otherwise. *)
Inductive safe_nested_lookup (d : list (string * pyval)) (outer inner : string)
  : pyval -> Prop :=
  | outer_absent :
      dict_get d outer = None ->
      safe_nested_lookup d outer inner PNone
  | inner_absent d' :
      dict_get d outer = Some (PDict d') -> dict_get d' inner = None ->
      safe_nested_lookup d outer inner PNone
  | both_present d' v :
      dict_get d outer = Some (PDict d') -> dict_get d' inner = Some v ->
      safe_nested_lookup d outer inner v.

(** A field of a dictionary is absent or holds a dictionary. *)
Definition absent_or_dict (d : list (string * pyval)) (k : string) : Prop :=
  forall x, dict_get d k = Some x -> exists d', x = PDict d'.

(** The fields of a bgp-instance that [get_bgp_evpn_info] subscripts
    whatever the instance holds. *)
Definition evpn_required_fields : list string :=
  ["id"; "admin-state"; "vxlan-interface"; "evi"; "ecmp"].

(** A bgp-instance of a network instance lacks a required field: the name
    of the network instance, or one of the fields above. *)
Definition lacks_required_field (network_instance bgp_instance : pyval)
  : Prop :=
  exists d, bgp_instance = PDict d /\
    (py_getitem network_instance "name" = inl (KeyError (PStr "name")) \/
     exists k, In k evpn_required_fields /\ dict_get d k = None).

(** ** Notions used to state further properties *)

(** The network instances an update contributes: none when its 'val' does
    not hold the collection key, the elements under the key otherwise. *)
Inductive update_instances : pyval -> list pyval -> Prop :=
  | update_without_key update val :
      py_getitem update "val" = inr val ->
      py_contains "srl_nokia-network-instance:network-instance" val
        = inr false ->
      update_instances update []
  | update_with_key update val network_instances l :
      py_getitem update "val" = inr val ->
      py_contains "srl_nokia-network-instance:network-instance" val
        = inr true ->
      py_getitem val "srl_nokia-network-instance:network-instance"
        = inr network_instances ->
      py_iter network_instances = inr l ->
      update_instances update l.

(** The network instances a notification contributes: those of its updates,
    in order. *)
Inductive notification_instances : pyval -> list pyval -> Prop :=
  | notification_updates notification updates us ls :
      py_getitem notification "update" = inr updates ->
      py_iter updates = inr us ->
      Forall2 update_instances us ls ->
      notification_instances notification (concat ls).

(** The record of an EVPN bgp-instance that holds the five fields. *)
Definition evpn_record_of (name : pyval) (d : list (string * pyval))
  : option BgpEvpn.t :=
  match dict_get d "id", dict_get d "admin-state",
        dict_get d "vxlan-interface", dict_get d "evi", dict_get d "ecmp" with
  | Some a2, Some a3, Some a4, Some a5, Some a6 =>
      Some (BgpEvpn.mk name a2 a3 a4 a5 a6
              (match dict_get d "oper-state" with
               | Some v => v
               | None => PStr "no state"
               end))
  | _, _, _, _, _ => None
  end.

(** The records of a network instance of the EVPN path: one per
    bgp-instance, in order; the name is only needed when there is one. *)
Inductive evpn_instance_records : pyval -> list BgpEvpn.t -> Prop :=
  | evpn_no_bgp_instance ni :
      evpn_bgp_instances ni = inr [] ->
      evpn_instance_records ni []
  | evpn_some_bgp_instances ni name l rs :
      evpn_bgp_instances ni = inr l ->
      py_getitem ni "name" = inr name ->
      Forall2 (fun b r => exists d, b = PDict d /\
                                    evpn_record_of name d = Some r) l rs ->
      evpn_instance_records ni rs.

(** [d.get(outer, {}).get(inner)] on the items of a dictionary, when it does
    not raise: the outer field is absent or is a dictionary. *)
Definition nested_get (d : list (string * pyval)) (outer inner : string)
  : option pyval :=
  match dict_get d outer with
  | None => Some PNone
  | Some (PDict d') =>
      Some (match dict_get d' inner with Some v => v | None => PNone end)
  | Some _ => None
  end.

(** The record of a VPN bgp-instance that holds an id and whose two
    optional fields are absent or dictionaries. *)
Definition vpn_record_of (name : pyval) (d : list (string * pyval))
  : option BgpVpn.t :=
  match dict_get d "id", nested_get d "route-distinguisher" "rd",
        nested_get d "route-target" "export-rt",
        nested_get d "route-target" "import-rt" with
  | Some a2, Some a3, Some a4, Some a5 => Some (BgpVpn.mk name a2 a3 a4 a5)
  | _, _, _, _ => None
  end.

Inductive vpn_instance_records : pyval -> list BgpVpn.t -> Prop :=
  | vpn_no_bgp_instance ni :
      vpn_bgp_instances ni = inr [] ->
      vpn_instance_records ni []
  | vpn_some_bgp_instances ni name l rs :
      vpn_bgp_instances ni = inr l ->
      py_getitem ni "name" = inr name ->
      Forall2 (fun b r => exists d, b = PDict d /\
                                    vpn_record_of name d = Some r) l rs ->
      vpn_instance_records ni rs.

(** A value that is not a dictionary. *)
Definition not_a_dict (v : pyval) : Prop :=
  match v with
  | PDict _ => False
  | _ => True
  end.

(** The values of a list without those equal, as keys, to an earlier
    one. *)
Fixpoint first_occurrences (ks : list pyval) : list pyval :=
  match ks with
  | [] => []
  | k :: ks' =>
      k :: filter (fun k' => negb (key_eqb k k')) (first_occurrences ks')
  end.

(** Whether an item of a list has a key equal to [k]. *)
Definition named {V} (key : V -> pyval) (items : list V) (k : pyval) : bool :=
  existsb (fun item => key_eqb (key item) k) items.

(** The rows of a device whose names can all be keys. *)
Definition device_join (device : SrlDevice) : list row :=
  let de := dict_of BgpEvpn.network_instance [] (bgp_evpn device) in
  let dv := dict_of BgpVpn.network_instance [] (bgp_vpn device) in
  join_rows device de dv (dict_keys de).

(** The two calls made for a router, in the order they are made. *)
Definition router_calls (port : Z) (u p : string) (r : string)
  : list gnmi_call :=
  [mkCall (mkSession (r, port) u p true) evpn_path LOGGING_LEVEL_CRITICAL;
   mkCall (mkSession (r, port) u p true) vpn_path LOGGING_LEVEL_CRITICAL].

(** The construction of the device of a router, as [main] calls it. *)
Definition construct (net : network) (gnmi_port : Z) (usr pwd : string)
    (skip : bool) (router : string) : M state SrlDevice :=
  SrlDevice_init net router gnmi_port DEFAULT_MODEL DEFAULT_RELEASE
                 usr pwd skip.

(** A row has the cell that subscript [i] denotes. *)
Definition has_column (i : Z) (row : list pyval) : bool :=
  match list_position (length row) i with
  | Some _ => true
  | None => false
  end.

(** A row after [highlight_alternate_groups]: the same cells, but for the
    cell of the column, which is as it was or is its highlighted text. *)
Definition highlighted_or_same (py_repr : pyval -> string) (i : Z)
    (row row' : list pyval) : Prop :=
  exists p,
    list_position (length row) i = Some p /\
    length row' = length row /\
    (forall q, q <> p -> nth q row' PNone = nth q row PNone) /\
    (nth p row' PNone = nth p row PNone \/
     nth p row' PNone =
     PStr (highlighted (py_str py_repr (nth p row PNone)))).

(** A text that does not begin with the escape character. *)
Definition escape_free (text : string) : bool :=
  match text with
  | String c _ => negb (Ascii.eqb c "027")
  | EmptyString => true
  end.

(** Which cells of a column of texts are highlighted: a cell is when it
    differs from the cell before it and that one is not highlighted.
    [prev] is the cell before the list and whether it is highlighted. *)
Fixpoint highlight_flags (prev : option (string * bool))
    (cells : list string) : list bool :=
  match cells with
  | [] => []
  | c :: cs =>
      let h := match prev with
               | None => false
               | Some (b, hb) => negb hb && negb (String.eqb b c)
               end in
      h :: highlight_flags (Some (c, h)) cs
  end.

(** The local variables of the loop after a cell of text: the value of the
    cell as the row holds it, and whether it was highlighted. *)
Definition highlight_state (prev : option (string * bool)) : pyval * bool :=
  match prev with
  | None => (PNone, false)
  | Some (b, hb) => (PStr (if hb then highlighted b else b), hb)
  end.

(** The cells of a column of texts after the highlighting. *)
Definition highlighted_cells (prev : option (string * bool))
    (cells : list string) : list (result pyval) :=
  map (fun ch : string * bool =>
         inr (PStr (if snd ch then highlighted (fst ch) else fst ch)))
      (combine cells (highlight_flags prev cells)).

(** * Properties *)

(** ** The monad and its loops *)

Lemma for_each_app {S A} (l1 l2 : list A) (body : A -> M S unit) (s : S) :
  for_each (l1 ++ l2) body s =
  match for_each l1 body s with
  | (inr _, s1) => for_each l2 body s1
  | (inl e, s1) => (inl e, s1)
  end.
Proof.
  revert s; induction l1 as [|x l1 IH]; intros s; simpl.
  - reflexivity.
  - unfold bind. destruct (body x s) as [[e|[]] s1]; auto.
Qed.

(** A loop whose body always appends what a function gives. *)
Lemma for_each_appends {A B} (f : A -> list B) (body : A -> M (list B) unit)
    (l : list A) :
  (forall x acc, In x l -> body x acc = (inr tt, acc ++ f x)) ->
  forall acc, for_each l body acc = (inr tt, acc ++ flat_map f l).
Proof.
  induction l as [|x l IH]; intros Hb acc; simpl.
  - now rewrite app_nil_r.
  - unfold bind. rewrite Hb by now left.
    rewrite IH by (intros; apply Hb; now right).
    now rewrite <- app_assoc.
Qed.

(** A loop stops at the first element whose body raises. *)
Lemma for_each_raises {S A} (body : A -> M S unit) (l1 l2 : list A) (x : A)
    (s s1 s2 : S) (e : exn) :
  for_each l1 body s = (inr tt, s1) ->
  body x s1 = (inl e, s2) ->
  for_each (l1 ++ x :: l2) body s = (inl e, s2).
Proof.
  intros H1 Hx. rewrite for_each_app, H1. simpl. unfold bind. now rewrite Hx.
Qed.

(** A loop raises when the body raises at one of the elements, whatever the
    state it is reached in. *)
Lemma for_each_some_raises {S A} (body : A -> M S unit) (l : list A) (x : A) :
  In x l ->
  (forall s, exists e s', body x s = (inl e, s')) ->
  forall s, exists e s', for_each l body s = (inl e, s').
Proof.
  intros Hin Hx. induction l as [|y l IH]; [contradiction|].
  intros s. simpl. unfold bind. destruct Hin as [->|Hin].
  - destruct (Hx s) as (e & s' & ->). eauto.
  - destruct (body y s) as [[e|[]] s1]; eauto.
Qed.

(** A loop over a body that only extends the state only extends it. *)
Lemma for_each_extends {A B} (body : A -> M (list B) unit) (l : list A) :
  (forall x acc, exists more, snd (body x acc) = acc ++ more) ->
  forall acc, exists more, snd (for_each l body acc) = acc ++ more.
Proof.
  intros Hb. induction l as [|x l IH]; intros acc; simpl.
  - exists []. now rewrite app_nil_r.
  - unfold bind. destruct (Hb x acc) as [m1 H1].
    destruct (body x acc) as [[e|[]] acc1]; simpl in H1; subst acc1.
    + exists m1. reflexivity.
    + destruct (IH (acc ++ m1)) as [m2 H2]. exists (m1 ++ m2).
      now rewrite H2, app_assoc.
Qed.

Lemma map_M_app {S A B} (f : A -> M S B) (l1 l2 : list A) (s : S) :
  map_M f (l1 ++ l2) s =
  match map_M f l1 s with
  | (inr ys1, s1) =>
      match map_M f l2 s1 with
      | (inr ys2, s2) => (inr (ys1 ++ ys2), s2)
      | (inl e, s2) => (inl e, s2)
      end
  | (inl e, s1) => (inl e, s1)
  end.
Proof.
  revert s; induction l1 as [|x l1 IH]; intros s; simpl.
  - destruct (map_M f l2 s) as [[e|ys] s2]; reflexivity.
  - unfold bind, ret. destruct (f x s) as [[e|y] s1]; auto.
    rewrite IH.
    destruct (map_M f l1 s1) as [[e|ys1] s2]; auto.
    destruct (map_M f l2 s2) as [[e|ys2] s3]; reflexivity.
Qed.

(** ** Fetching *)

Section Fetch.

Variable net : network.

(** [_get_gnmi_info] never raises; it sets the level of the logger to
    CRITICAL, makes one call, prints, and leaves the level at WARNING. *)
Lemma get_gnmi_info_eq (self : SrlDevice) (gnmi_path : list string)
    (st : state) :
  _get_gnmi_info net self gnmi_path st =
  let r := fetched (net (length (calls st)) (fetch_call self gnmi_path)) in
  (inr (fst r),
   mkState LOGGING_LEVEL_WARNING (stdout st ++ snd r)
           (calls st ++ [fetch_call self gnmi_path])).
Proof.
  unfold _get_gnmi_info, fetched, decoded, fetch_call.
  unfold bind, ret, setLevel, print, modify, gNMIclient_get.
  cbn [pygnmi_level stdout calls].
  destruct (net _ _) as [e|v|v e]; cbn [fst snd].
  - reflexivity.
  - destruct v; try (now rewrite app_nil_r);
      match goal with
      | |- context [decode ?v []] =>
          destruct (decode v []) as [[[k| | |n]|[]] info] eqn:E
      end; cbn [fst snd pygnmi_level stdout calls];
      rewrite ?app_nil_r; reflexivity.
  - destruct v; try reflexivity;
      match goal with
      | |- context [decode ?v []] =>
          destruct (decode v []) as [[[k| | |n]|[]] info] eqn:E
      end; cbn [fst snd pygnmi_level stdout calls];
      rewrite <- ?app_assoc; reflexivity.
Qed.

End Fetch.

Lemma decode_update_extends (update : pyval) (acc : list pyval) :
  exists more, snd (decode_update update acc) = acc ++ more.
Proof.
  assert (exists more, acc = acc ++ more) as Hnil
    by (exists []; now rewrite app_nil_r).
  unfold decode_update, bind, lift, ret.
  destruct (py_getitem update "val") as [e|val]; simpl; auto.
  destruct (py_contains _ val) as [e|[|]]; simpl; auto.
  destruct (py_getitem val _) as [e|nis]; simpl; auto.
  destruct (py_iter nis) as [e|l]; simpl; auto.
  apply for_each_extends. intros x acc'. exists [x]. reflexivity.
Qed.

Lemma decode_notification_extends (notification : pyval) (acc : list pyval) :
  exists more, snd (decode_notification notification acc) = acc ++ more.
Proof.
  assert (exists more, acc = acc ++ more) as Hnil
    by (exists []; now rewrite app_nil_r).
  unfold decode_notification, bind, lift.
  destruct (py_getitem notification "update") as [e|updates]; simpl; auto.
  destruct (py_iter updates) as [e|us]; simpl; auto.
  apply for_each_extends. apply decode_update_extends.
Qed.

(** ** Keys of dictionaries *)

Lemma key_eqb_refl (k : pyval) : hashable k = true -> key_eqb k k = true.
Proof.
  destruct k as [|b|z|s|l|d]; simpl; intros H; try discriminate; auto.
  - now destruct b.
  - apply Z.eqb_refl.
  - apply String.eqb_refl.
Qed.

Lemma key_eqb_sym (a b : pyval) : key_eqb a b = key_eqb b a.
Proof.
  destruct a as [|x|x|x|x|x], b as [|y|y|y|y|y]; simpl; auto.
  - now destruct x, y.
  - apply Z.eqb_sym.
  - apply Z.eqb_sym.
  - apply Z.eqb_sym.
  - apply String.eqb_sym.
Qed.

Lemma key_eqb_trans (a b c : pyval) :
  key_eqb a b = true -> key_eqb b c = true -> key_eqb a c = true.
Proof.
  destruct a as [|x|x|x|x|x], b as [|y|y|y|y|y], c as [|z|z|z|z|z];
    simpl; try discriminate; auto;
    rewrite ?Z.eqb_eq, ?String.eqb_eq;
    try (destruct x, y, z; simpl; congruence);
    try (destruct x, y; simpl; intros; subst; auto; discriminate);
    try (destruct x, z; simpl; intros; subst; auto; discriminate);
    try (destruct y, z; simpl; intros; subst; auto; discriminate);
    try (destruct y; simpl; intros; subst; auto; discriminate);
    intros; congruence.
Qed.

(** Equal keys cannot be told apart by a comparison with a third key. *)
Lemma key_eqb_congr (a b c : pyval) :
  key_eqb a b = true -> key_eqb a c = key_eqb b c.
Proof.
  intros Hab.
  destruct (key_eqb a c) eqn:Hac, (key_eqb b c) eqn:Hbc; auto.
  - rewrite key_eqb_sym in Hab.
    now rewrite (key_eqb_trans _ _ _ Hab Hac) in Hbc.
  - now rewrite (key_eqb_trans _ _ _ Hab Hbc) in Hac.
Qed.

Lemma key_eqb_hashable (a b : pyval) : key_eqb a b = true -> hashable b = true.
Proof. destruct a, b; simpl; auto; discriminate. Qed.

(** ** Dictionaries *)

Section Dict.

Context {V : Type}.
Implicit Types (d : list (pyval * V)) (k : pyval) (v : V).

Lemma dict_lookup_congr d a b :
  key_eqb a b = true -> dict_lookup d a = dict_lookup d b.
Proof.
  intros Hab. induction d as [|[k0 v0] d IH]; simpl; auto.
  rewrite (key_eqb_sym k0 a), (key_eqb_sym k0 b), (key_eqb_congr a b k0 Hab).
  now rewrite IH.
Qed.

Lemma dict_lookup_set d k v k' :
  dict_lookup (dict_set d k v) k' =
  if key_eqb k k' then Some v else dict_lookup d k'.
Proof.
  induction d as [|[k0 v0] d IH]; simpl; auto.
  destruct (key_eqb k0 k) eqn:E0; simpl.
  - rewrite (key_eqb_congr k0 k k' E0). now destruct (key_eqb k k').
  - rewrite IH. destruct (key_eqb k0 k') eqn:E1, (key_eqb k k') eqn:E2; auto.
    rewrite key_eqb_sym in E2.
    now rewrite (key_eqb_trans _ _ _ E1 E2) in E0.
Qed.

Lemma dict_mem_keys d k :
  dict_mem d k = existsb (fun k' => key_eqb k' k) (dict_keys d).
Proof.
  unfold dict_mem. induction d as [|[k0 v0] d IH]; simpl; auto.
  destruct (key_eqb k0 k); auto.
Qed.

Lemma dict_keys_set d k v :
  dict_keys (dict_set d k v) =
  if dict_mem d k then dict_keys d else dict_keys d ++ [k].
Proof.
  unfold dict_mem. induction d as [|[k0 v0] d IH]; simpl; auto.
  destruct (key_eqb k0 k); simpl; auto.
  rewrite IH. now destruct (dict_lookup d k).
Qed.

Lemma dict_set_length d k v : (length (dict_set d k v) <= S (length d))%nat.
Proof.
  induction d as [|[k0 v0] d IH]; simpl; auto.
  destruct (key_eqb k0 k); simpl; lia.
Qed.

Lemma distinct_keys_snoc (ks : list pyval) k :
  distinct_keys ks -> hashable k = true ->
  existsb (fun k' => key_eqb k' k) ks = false ->
  distinct_keys (ks ++ [k]).
Proof.
  induction ks as [|k0 ks IH]; simpl.
  - intros _ Hk _. auto.
  - intros (H0 & Hn & Hd) Hk He.
    apply orb_false_iff in He as [E0 He].
    repeat split; auto.
    rewrite existsb_app, Hn. simpl.
    now rewrite key_eqb_sym, E0.
Qed.

Lemma dict_set_distinct d k v :
  distinct_keys (dict_keys d) -> hashable k = true ->
  distinct_keys (dict_keys (dict_set d k v)).
Proof.
  intros Hd Hk. rewrite dict_keys_set.
  destruct (dict_mem d k) eqn:E; auto.
  apply distinct_keys_snoc; auto. now rewrite <- dict_mem_keys.
Qed.

(** A key of a dictionary is found in it. *)
Lemma dict_lookup_key d k :
  distinct_keys (dict_keys d) -> In k (dict_keys d) ->
  exists v, dict_lookup d k = Some v.
Proof.
  induction d as [|[k0 v0] d IH]; simpl; [tauto|].
  intros (H0 & _ & Hd) [->|Hin].
  - rewrite key_eqb_refl by assumption. eauto.
  - destruct (key_eqb k0 k); eauto.
Qed.

Variable key : V -> pyval.

Lemma dict_comprehension_from_ok d (items : list V) :
  hashable_names key items ->
  dict_comprehension_from key d items = inr (dict_of key d items).
Proof.
  intros H. revert d. induction H as [|x l Hx _ IH]; intros d; simpl; auto.
  now rewrite Hx, IH.
Qed.

Lemma dict_of_distinct d (items : list V) :
  hashable_names key items -> distinct_keys (dict_keys d) ->
  distinct_keys (dict_keys (dict_of key d items)).
Proof.
  intros H. revert d. induction H as [|x l Hx _ IH]; intros d Hd; simpl; auto.
  apply IH. now apply dict_set_distinct.
Qed.

Lemma dict_of_length d (items : list V) :
  (length (dict_of key d items) <= length d + length items)%nat.
Proof.
  revert d. induction items as [|x l IH]; intros d; simpl; [lia|].
  specialize (IH (dict_set d (key x) x)).
  pose proof (dict_set_length d (key x) x) as Hs.
  unfold dict_of in *. simpl. lia.
Qed.

Lemma find_snoc {A} (f : A -> bool) (l : list A) (x : A) :
  find f (l ++ [x]) =
  match find f l with
  | Some y => Some y
  | None => if f x then Some x else None
  end.
Proof.
  induction l as [|y l IH]; simpl; auto. destruct (f y); auto.
Qed.

(** Last write wins: the value under a key is the last item with that key. *)
Lemma dict_of_lookup d (items : list V) k :
  dict_lookup (dict_of key d items) k =
  match last_named key items k with
  | Some x => Some x
  | None => dict_lookup d k
  end.
Proof.
  unfold last_named.
  revert d. induction items as [|x l IH]; intros d; auto.
  change (dict_of key d (x :: l)) with (dict_of key (dict_set d (key x) x) l).
  simpl rev. rewrite IH, find_snoc, dict_lookup_set.
  destruct (find _ (rev l)); auto.
  now destruct (key_eqb (key x) k).
Qed.

End Dict.

(** ** The join *)

Lemma dict_of_mem {V} (key : V -> pyval) (items : list V) (k : pyval) :
  dict_mem (dict_of key [] items) k =
  existsb (fun item => key_eqb (key item) k) items.
Proof.
  unfold dict_mem. rewrite dict_of_lookup. unfold last_named. simpl.
  destruct (find _ (rev items)) as [x|] eqn:E.
  - apply find_some in E as [Hin Hx]. symmetry. apply existsb_exists.
    exists x. split; auto. now apply in_rev.
  - symmetry. apply not_true_is_false. intros H.
    apply existsb_exists in H as (x & Hin & Hx).
    apply in_rev in Hin. now rewrite (find_none _ _ E x Hin) in Hx.
Qed.

Lemma device_rows_join (device : SrlDevice) (rows0 : list row) :
  hashable_names BgpEvpn.network_instance (bgp_evpn device) ->
  hashable_names BgpVpn.network_instance (bgp_vpn device) ->
  let de := dict_of BgpEvpn.network_instance [] (bgp_evpn device) in
  let dv := dict_of BgpVpn.network_instance [] (bgp_vpn device) in
  device_rows device rows0 =
  (inr tt, rows0 ++ join_rows device de dv (dict_keys de)).
Proof.
  intros He Hv de dv. unfold device_rows, dict_comprehension, bind, lift.
  rewrite (dict_comprehension_from_ok _ _ _ He).
  rewrite (dict_comprehension_from_ok _ _ _ Hv).
  fold de dv. unfold join_rows.
  apply for_each_appends. intros key acc Hin.
  destruct (dict_lookup_key de key) as [e Hl]; auto.
  { apply dict_of_distinct; simpl; auto. }
  unfold dict_mem, dict_getitem, append, modify. rewrite Hl.
  destruct (dict_lookup dv key); auto. now rewrite app_nil_r.
Qed.

Section Join.

Variable device : SrlDevice.
Variable de : list (pyval * BgpEvpn.t).
Variable dv : list (pyval * BgpVpn.t).

Lemma join_rows_length (ks : list pyval) :
  (length (join_rows device de dv ks) <= length (filter (dict_mem dv) ks))%nat.
Proof.
  unfold join_rows, dict_mem. induction ks as [|k ks IH]; simpl; auto.
  rewrite length_app.
  destruct (dict_lookup dv k), (dict_lookup de k); simpl; lia.
Qed.

Lemma join_rows_instances (ks : list pyval) :
  Forall (fun r => In (row_instance r) ks /\
                   dict_mem dv (row_instance r) = true)
         (join_rows device de dv ks).
Proof.
  unfold join_rows, dict_mem. induction ks as [|k ks IH]; simpl; auto.
  apply Forall_app. split.
  - destruct (dict_lookup dv k) eqn:Ev, (dict_lookup de k); auto.
    constructor; auto. unfold row_instance; simpl. now rewrite Ev; auto.
  - eapply Forall_impl; [|exact IH]. simpl. tauto.
Qed.

(** Counting the rows of a key comes down to counting the keys. *)
Lemma join_rows_count (ks : list pyval) (k : pyval) :
  (forall k', In k' ks -> dict_lookup de k' <> None) ->
  length (filter (fun r => key_eqb (row_instance r) k)
                 (join_rows device de dv ks)) =
  length (filter (fun k' => key_eqb k' k && dict_mem dv k') ks).
Proof.
  unfold join_rows, dict_mem. induction ks as [|k1 ks IH]; intros Hde; auto.
  simpl. rewrite filter_app, length_app, IH by (intros; apply Hde; now right).
  f_equal. specialize (Hde k1 (or_introl eq_refl)).
  destruct (dict_lookup dv k1), (dict_lookup de k1); try tauto; simpl;
    unfold row_instance; simpl; destruct (key_eqb k1 k); reflexivity.
Qed.

Lemma join_rows_records (ks : list pyval) :
  Forall (fun r => exists e v,
            dict_lookup de (row_instance r) = Some e /\
            dict_lookup dv (row_instance r) = Some v /\
            r = joined_row device (row_instance r) e v)
         (join_rows device de dv ks).
Proof.
  unfold join_rows. induction ks as [|k ks IH]; simpl; auto.
  apply Forall_app. split; auto.
  destruct (dict_lookup dv k) as [v|] eqn:Ev; auto.
  destruct (dict_lookup de k) as [e|] eqn:Ee; auto.
  constructor; auto. exists e, v. unfold row_instance; simpl. auto.
Qed.

(** A key of the list that both dictionaries hold has its row. *)
Lemma join_rows_in (ks : list pyval) (k : pyval) (e : BgpEvpn.t)
    (v : BgpVpn.t) :
  In k ks -> dict_lookup de k = Some e -> dict_lookup dv k = Some v ->
  In (joined_row device k e v) (join_rows device de dv ks).
Proof.
  intros Hin He Hv. unfold join_rows. apply in_flat_map.
  exists k. split; auto. rewrite Hv, He. now left.
Qed.

Lemma filter_orb_length {A} (f g : A -> bool) (l : list A) :
  (length (filter (fun x => f x || g x) l)
   <= length (filter f l) + length (filter g l))%nat.
Proof.
  induction l as [|x l IH]; simpl; auto.
  destruct (f x), (g x); simpl; lia.
Qed.

Lemma filter_none {A} (f : A -> bool) (l : list A) :
  (forall x, In x l -> f x = false) -> filter f l = [].
Proof.
  induction l as [|x l IH]; simpl; auto. intros H.
  rewrite (H x) by now left. apply IH. intros; apply H; now right.
Qed.

(** Among distinct keys at most one equals a given key. *)
Lemma distinct_keys_one (ks : list pyval) (k : pyval) :
  distinct_keys ks ->
  (length (filter (fun k' => key_eqb k k') ks) <= 1)%nat.
Proof.
  induction ks as [|k1 ks IH]; simpl; auto.
  intros (_ & Hn & Hd). destruct (key_eqb k k1) eqn:E; simpl; auto.
  assert (filter (fun k' => key_eqb k k') ks = []) as ->; auto.
  apply filter_none. intros k2 H2. apply not_true_is_false. intros E2.
  assert (existsb (fun k' => key_eqb k' k1) ks = true) as Hx; [|congruence].
  apply existsb_exists. exists k2. split; auto.
  rewrite key_eqb_sym in E2. exact (key_eqb_trans _ _ _ E2 E).
Qed.

(** Distinct keys that are all keys of a dictionary are no more than its
    entries. *)
Lemma distinct_keys_mem_length {V} (d : list (pyval * V)) (ks : list pyval) :
  distinct_keys ks ->
  (length (filter (dict_mem d) ks) <= length d)%nat.
Proof.
  intros Hd. unfold dict_mem. induction d as [|[k0 v0] d IH]; simpl.
  - rewrite filter_none; auto.
  - rewrite (filter_ext _ (fun k => key_eqb k0 k ||
                 match dict_lookup d k with Some _ => true | None => false end)).
    + pose proof (filter_orb_length (fun k => key_eqb k0 k)
        (fun k => match dict_lookup d k with Some _ => true | None => false end)
        ks).
      pose proof (distinct_keys_one ks k0 Hd). lia.
    + intros k. now destruct (key_eqb k0 k).
Qed.

Lemma distinct_keys_count (ks : list pyval) (k : pyval) :
  distinct_keys ks ->
  length (filter (fun k' => key_eqb k' k && dict_mem dv k') ks) =
  if existsb (fun k' => key_eqb k' k) ks && dict_mem dv k then 1%nat else 0%nat.
Proof.
  induction ks as [|k1 ks IH]; [reflexivity|].
  intros (_ & Hn & Hd). specialize (IH Hd). cbn [filter existsb].
  destruct (key_eqb k1 k) eqn:E; cbn [andb orb]; [|exact IH].
  assert (existsb (fun k' => key_eqb k' k) ks = false) as Hx.
  { apply not_true_is_false. intros H.
    apply existsb_exists in H as (k2 & H2 & E2).
    assert (existsb (fun k' => key_eqb k' k1) ks = true) as Hx; [|congruence].
    apply existsb_exists. exists k2. split; auto.
    rewrite (key_eqb_sym k1 k) in E. exact (key_eqb_trans _ _ _ E2 E). }
  rewrite Hx in IH. cbn [andb] in IH.
  assert (dict_mem dv k1 = dict_mem dv k) as ->
    by (unfold dict_mem; now rewrite (dict_lookup_congr dv k1 k E)).
  destruct (dict_mem dv k); cbn [length]; lia.
Qed.

End Join.

(** ** The reconciler *)

(** C1. The join of a device is an inner join on the network-instance name:
    when the names of the records can be dictionary keys, the loop appends
    rows and raises nothing; the rows are no more than the EVPN records and
    no more than the VPN records; the network instance of every row is a key
    of both dictionaries; and every key of both dictionaries has exactly one
    row, every other value none.  The keys of a dictionary are the names of
    the records it was built from. *)
Theorem join_is_inner_join (device : SrlDevice) (rows0 : list row) :
  hashable_names BgpEvpn.network_instance (bgp_evpn device) ->
  hashable_names BgpVpn.network_instance (bgp_vpn device) ->
  exists de dv new,
    dict_comprehension BgpEvpn.network_instance (bgp_evpn device) = inr de /\
    dict_comprehension BgpVpn.network_instance (bgp_vpn device) = inr dv /\
    device_rows device rows0 = (inr tt, rows0 ++ new) /\
    (length new <= Nat.min (length (bgp_evpn device))
                           (length (bgp_vpn device)))%nat /\
    Forall (fun r => dict_mem de (row_instance r) = true /\
                     dict_mem dv (row_instance r) = true) new /\
    (forall k,
       length (filter (fun r => key_eqb (row_instance r) k) new) =
       if dict_mem de k && dict_mem dv k then 1%nat else 0%nat) /\
    (forall k,
       dict_mem de k =
       existsb (fun e => key_eqb (BgpEvpn.network_instance e) k)
               (bgp_evpn device)) /\
    (forall k,
       dict_mem dv k =
       existsb (fun v => key_eqb (BgpVpn.network_instance v) k)
               (bgp_vpn device)).
Proof.
  intros He Hv.
  set (de := dict_of BgpEvpn.network_instance [] (bgp_evpn device)).
  set (dv := dict_of BgpVpn.network_instance [] (bgp_vpn device)).
  assert (distinct_keys (dict_keys de)) as Hde
    by (apply dict_of_distinct; simpl; auto).
  exists de, dv, (join_rows device de dv (dict_keys de)).
  split; [now apply dict_comprehension_from_ok|].
  split; [now apply dict_comprehension_from_ok|].
  split; [now apply device_rows_join|].
  split; [|split; [|split; [|split]]].
  - pose proof (join_rows_length device de dv (dict_keys de)) as H1.
    pose proof (distinct_keys_mem_length dv (dict_keys de) Hde) as H2.
    pose proof (filter_length_le (dict_mem dv) (dict_keys de)) as H3.
    pose proof (dict_of_length BgpEvpn.network_instance [] (bgp_evpn device)) as H4.
    pose proof (dict_of_length BgpVpn.network_instance [] (bgp_vpn device)) as H5.
    fold de in H4. fold dv in H5. unfold dict_keys in H1, H2, H3 |- *.
    rewrite length_map in H3. simpl in H4, H5.
    apply Nat.min_glb; lia.
  - eapply Forall_impl; [|apply join_rows_instances].
    intros r [Hin Hm]. split; auto.
    destruct (dict_lookup_key de _ Hde Hin) as [e Hl].
    unfold dict_mem. now rewrite Hl.
  - intros k. rewrite join_rows_count.
    + rewrite distinct_keys_count by assumption.
      now rewrite <- dict_mem_keys.
    + intros k' Hin. destruct (dict_lookup_key de _ Hde Hin) as [e Hl].
      congruence.
  - intros k. apply dict_of_mem.
  - intros k. apply dict_of_mem.
Qed.

(** C5. Last write wins: when the names of the records can be dictionary
    keys, the value a dictionary holds under a key is the last record of the
    list, in source order, whose name equals the key; every row of the join
    is made from the last EVPN record and the last VPN record of its network
    instance; and every name that has a record on both sides has such a
    row, made from the last record of each side. *)
Theorem join_last_write_wins (device : SrlDevice) (rows0 : list row) :
  hashable_names BgpEvpn.network_instance (bgp_evpn device) ->
  hashable_names BgpVpn.network_instance (bgp_vpn device) ->
  exists de dv new,
    dict_comprehension BgpEvpn.network_instance (bgp_evpn device) = inr de /\
    dict_comprehension BgpVpn.network_instance (bgp_vpn device) = inr dv /\
    (forall k, dict_lookup de k =
               last_named BgpEvpn.network_instance (bgp_evpn device) k) /\
    (forall k, dict_lookup dv k =
               last_named BgpVpn.network_instance (bgp_vpn device) k) /\
    device_rows device rows0 = (inr tt, rows0 ++ new) /\
    Forall (fun r => exists e v,
              last_named BgpEvpn.network_instance (bgp_evpn device)
                         (row_instance r) = Some e /\
              last_named BgpVpn.network_instance (bgp_vpn device)
                         (row_instance r) = Some v /\
              r = joined_row device (row_instance r) e v) new /\
    (forall k e v,
       last_named BgpEvpn.network_instance (bgp_evpn device) k = Some e ->
       last_named BgpVpn.network_instance (bgp_vpn device) k = Some v ->
       exists r,
         In r new /\ key_eqb (row_instance r) k = true /\
         r = joined_row device (row_instance r) e v).
Proof.
  intros He Hv.
  set (de := dict_of BgpEvpn.network_instance [] (bgp_evpn device)).
  set (dv := dict_of BgpVpn.network_instance [] (bgp_vpn device)).
  assert (forall k, dict_lookup de k =
            last_named BgpEvpn.network_instance (bgp_evpn device) k) as Le.
  { intros k. unfold de. rewrite dict_of_lookup. simpl.
    now destruct (last_named _ _ k). }
  assert (forall k, dict_lookup dv k =
            last_named BgpVpn.network_instance (bgp_vpn device) k) as Lv.
  { intros k. unfold dv. rewrite dict_of_lookup. simpl.
    now destruct (last_named _ _ k). }
  exists de, dv, (join_rows device de dv (dict_keys de)).
  split; [now apply dict_comprehension_from_ok|].
  split; [now apply dict_comprehension_from_ok|].
  split; [exact Le|]. split; [exact Lv|].
  split; [now apply device_rows_join|]. split.
  - eapply Forall_impl; [|apply join_rows_records].
    intros r (e & v & H1 & H2 & H3). exists e, v.
    rewrite <- Le, <- Lv. auto.
  - intros k e v Hke Hkv. rewrite <- Le in Hke. rewrite <- Lv in Hkv.
    assert (dict_mem de k = true) as Hm by (unfold dict_mem; now rewrite Hke).
    rewrite dict_mem_keys in Hm.
    apply existsb_exists in Hm as (k' & Hin & Hk').
    exists (joined_row device k' e v).
    split; [|split; [exact Hk' | reflexivity]].
    apply join_rows_in; auto.
    + now rewrite (dict_lookup_congr de k' k Hk').
    + now rewrite (dict_lookup_congr dv k' k Hk').
Qed.

(** ** Extraction *)

Section Extraction.

Variable net : network.

(** The records depend on the process state through the outcome of the
    call only. *)
Lemma get_bgp_evpn_info_eq (self : SrlDevice) (st : state) :
  get_bgp_evpn_info net self st =
  let r := fetched (net (length (calls st)) (fetch_call self evpn_path)) in
  let st' := mkState LOGGING_LEVEL_WARNING (stdout st ++ snd r)
                     (calls st ++ [fetch_call self evpn_path]) in
  match evpn_records (fst r) [] with
  | (inr _, records) => (inr records, st')
  | (inl e, _) => (inl e, st')
  end.
Proof.
  unfold get_bgp_evpn_info, bind. fold evpn_path. rewrite get_gnmi_info_eq.
  reflexivity.
Qed.

Lemma get_bgp_vpn_info_eq (self : SrlDevice) (st : state) :
  get_bgp_vpn_info net self st =
  let r := fetched (net (length (calls st)) (fetch_call self vpn_path)) in
  let st' := mkState LOGGING_LEVEL_WARNING (stdout st ++ snd r)
                     (calls st ++ [fetch_call self vpn_path]) in
  match vpn_records (fst r) [] with
  | (inr _, records) => (inr records, st')
  | (inl e, _) => (inl e, st')
  end.
Proof.
  unfold get_bgp_vpn_info, bind. fold vpn_path. rewrite get_gnmi_info_eq.
  reflexivity.
Qed.

End Extraction.

(** A bgp-instance that lacks a required field makes the extraction of its
    record raise, and nothing is appended. *)
Lemma evpn_bgp_instance_lacking (network_instance bgp_instance : pyval)
    (acc : list BgpEvpn.t) :
  lacks_required_field network_instance bgp_instance ->
  exists e, evpn_bgp_instance network_instance bgp_instance acc = (inl e, acc).
Proof.
  intros (d & -> & H).
  unfold evpn_bgp_instance, bind, lift, py_contains.
  assert (forall k, py_getitem (PDict d) k =
            match dict_get d k with
            | Some x => inr x
            | None => inl (KeyError (PStr k))
            end) as Hg by reflexivity.
  rewrite !Hg. clear Hg.
  destruct H as [Hn | (k & Hk & Hd)].
  - rewrite Hn. destruct (dict_get d "oper-state"); simpl; eauto.
  - destruct (py_getitem network_instance "name") as [e|a1];
      [destruct (dict_get d "oper-state"); simpl; eauto|].
    simpl in Hk.
    destruct (dict_get d "id") eqn:E1;
      [|destruct (dict_get d "oper-state"); simpl; eauto].
    destruct (dict_get d "admin-state") eqn:E2;
      [|destruct (dict_get d "oper-state"); simpl; eauto].
    destruct (dict_get d "vxlan-interface") eqn:E3;
      [|destruct (dict_get d "oper-state"); simpl; eauto].
    destruct (dict_get d "evi") eqn:E4;
      [|destruct (dict_get d "oper-state"); simpl; eauto].
    destruct (dict_get d "ecmp") eqn:E5;
      [|destruct (dict_get d "oper-state"); simpl; eauto].
    destruct Hk as [<-|[<-|[<-|[<-|[<-|[]]]]]]; congruence.
Qed.

(** So does the extraction of the records of a list of network instances
    one of which has such a bgp-instance. *)
Lemma evpn_records_lacking (info : list pyval) (ni b : pyval)
    (l : list pyval) :
  In ni info -> evpn_bgp_instances ni = inr l -> In b l ->
  lacks_required_field ni b ->
  exists e, fst (evpn_records info []) = inl e.
Proof.
  intros Hni Hl Hb Hlack.
  destruct (for_each_some_raises
              (fun network_instance =>
                 l <- lift (evpn_bgp_instances network_instance) ;;
                 for_each l (evpn_bgp_instance network_instance))
              info ni Hni) with (s := @nil BgpEvpn.t) as (e & s' & H).
  - intros s. unfold bind, lift. rewrite Hl.
    apply (for_each_some_raises _ l b Hb).
    intros acc. destruct (evpn_bgp_instance_lacking ni b acc Hlack) as [e He].
    eauto.
  - exists e. unfold evpn_records. now rewrite H.
Qed.

(** C9. Extraction has no hidden state: when a device is queried twice in a
    row and answers the second call as it answered the first, the second
    run of [get_bgp_evpn_info] gives the result of the first, although it
    starts in the state the first run left; likewise for
    [get_bgp_vpn_info]. *)
Theorem extraction_twice_same_records (net : network) (self : SrlDevice)
    (st : state) :
  let n := length (calls st) in
  (net n (fetch_call self evpn_path) = net (S n) (fetch_call self evpn_path) ->
   let first := get_bgp_evpn_info net self st in
   fst (get_bgp_evpn_info net self (snd first)) = fst first) /\
  (net n (fetch_call self vpn_path) = net (S n) (fetch_call self vpn_path) ->
   let first := get_bgp_vpn_info net self st in
   fst (get_bgp_vpn_info net self (snd first)) = fst first).
Proof.
  assert (forall c, length (calls st ++ [c]) = S (length (calls st))) as Hlen
    by (intros; rewrite length_app; simpl; lia).
  split; intros H first; subst first.
  - rewrite (get_bgp_evpn_info_eq net self st). cbv zeta.
    destruct (evpn_records _ []) as [[e|[]] records] eqn:E;
      rewrite get_bgp_evpn_info_eq; cbv zeta; cbn [calls snd];
      rewrite Hlen, <- H, E; reflexivity.
  - rewrite (get_bgp_vpn_info_eq net self st). cbv zeta.
    destruct (vpn_records _ []) as [[e|[]] records] eqn:E;
      rewrite get_bgp_vpn_info_eq; cbv zeta; cbn [calls snd];
      rewrite Hlen, <- H, E; reflexivity.
Qed.

(** C4. For a bgp-instance that has the required fields, in a network
    instance that has a name, one record is appended: its [oper_state] is
    the string "no state" when the bgp-instance has no 'oper-state' key, and
    is the value under that key, unchanged, when it has one. *)
Theorem oper_state_default (network_instance : pyval)
    (d : list (string * pyval)) (name a2 a3 a4 a5 a6 : pyval)
    (acc : list BgpEvpn.t) :
  py_getitem network_instance "name" = inr name ->
  dict_get d "id" = Some a2 ->
  dict_get d "admin-state" = Some a3 ->
  dict_get d "vxlan-interface" = Some a4 ->
  dict_get d "evi" = Some a5 ->
  dict_get d "ecmp" = Some a6 ->
  (dict_get d "oper-state" = None ->
   evpn_bgp_instance network_instance (PDict d) acc =
   (inr tt, acc ++ [BgpEvpn.mk name a2 a3 a4 a5 a6 (PStr "no state")])) /\
  (forall v, dict_get d "oper-state" = Some v ->
   evpn_bgp_instance network_instance (PDict d) acc =
   (inr tt, acc ++ [BgpEvpn.mk name a2 a3 a4 a5 a6 v])).
Proof.
  intros Hn H2 H3 H4 H5 H6.
  split; [intros Ho | intros v Ho];
    unfold evpn_bgp_instance, bind, lift, append, modify, py_contains,
           py_getitem;
    rewrite Ho; cbn [negb]; fold (py_getitem network_instance "name");
    rewrite Hn, H2, H3, H4, H5, H6; reflexivity.
Qed.

(** C8. For a bgp-instance that has an id, in a network instance that has a
    name, and whose 'route-distinguisher' and 'route-target' fields, when
    present, are dictionaries, one record is appended; its [rd], [export_rt]
    and [import_rt] are each the safe nested lookup of the specification,
    whatever the other two are.  In particular when 'route-distinguisher' is
    absent and both route targets are present, the row joined from the
    record has [None] as RD and the two targets. *)
Theorem vpn_fields_safe_lookup (network_instance : pyval)
    (d : list (string * pyval)) (name a2 : pyval) (acc : list BgpVpn.t) :
  py_getitem network_instance "name" = inr name ->
  dict_get d "id" = Some a2 ->
  absent_or_dict d "route-distinguisher" ->
  absent_or_dict d "route-target" ->
  exists r,
    vpn_bgp_instance network_instance (PDict d) acc = (inr tt, acc ++ [r]) /\
    BgpVpn.network_instance r = name /\
    BgpVpn.id r = a2 /\
    safe_nested_lookup d "route-distinguisher" "rd" (BgpVpn.rd r) /\
    safe_nested_lookup d "route-target" "export-rt" (BgpVpn.export_rt r) /\
    safe_nested_lookup d "route-target" "import-rt" (BgpVpn.import_rt r) /\
    (forall dt exp imp device e rows0,
       dict_get d "route-distinguisher" = None ->
       dict_get d "route-target" = Some (PDict dt) ->
       dict_get dt "export-rt" = Some exp ->
       dict_get dt "import-rt" = Some imp ->
       bgp_evpn device = [e] -> bgp_vpn device = [r] ->
       key_eqb (BgpEvpn.network_instance e) name = true ->
       device_rows device rows0 =
       (inr tt,
        rows0 ++ [[PStr (router device); BgpEvpn.network_instance e;
                   BgpEvpn.id e; BgpEvpn.admin_state e;
                   BgpEvpn.vxlan_interface e; BgpEvpn.evi e; BgpEvpn.ecmp e;
                   BgpEvpn.oper_state e; PNone; imp; exp]])).
Proof.
  intros Hn H2 Hrd Hrt.
  assert (forall outer inner, absent_or_dict d outer ->
            exists x, rbind (py_get_or_empty (PDict d) outer)
                            (fun o => py_get o inner) = inr x /\
                      safe_nested_lookup d outer inner x) as Hsafe.
  { intros outer inner Hwf. unfold absent_or_dict in Hwf. simpl.
    destruct (dict_get d outer) as [x|] eqn:Eo.
    - destruct (Hwf x eq_refl) as [d' ->]. simpl.
      destruct (dict_get d' inner) as [v|] eqn:Ei; eexists; split; eauto.
      + eapply both_present; eauto.
      + eapply inner_absent; eauto.
    - simpl. eexists; split; eauto. now apply outer_absent. }
  destruct (Hsafe "route-distinguisher" "rd" Hrd) as (x3 & E3 & S3).
  destruct (Hsafe "route-target" "export-rt" Hrt) as (x4 & E4 & S4).
  destruct (Hsafe "route-target" "import-rt" Hrt) as (x5 & E5 & S5).
  exists (BgpVpn.mk name a2 x3 x4 x5).
  split; [|split; [|split; [|split; [|split; [|split]]]]]; auto.
  - unfold vpn_bgp_instance, bind, lift, append, modify. rewrite Hn.
    unfold py_getitem at 1. rewrite H2.
    unfold rbind in E3, E4, E5.
    destruct (py_get_or_empty (PDict d) "route-distinguisher") as [?|o3];
      [discriminate|]. rewrite E3.
    destruct (py_get_or_empty (PDict d) "route-target") as [?|o4];
      [discriminate|]. rewrite E4, E5. reflexivity.
  - intros dt exp imp device e rows0 Gd Gt Gx Gi De Dv Hk.
    assert (x3 = PNone) as ->.
    { simpl in E3. rewrite Gd in E3. simpl in E3. congruence. }
    assert (x4 = exp) as ->.
    { simpl in E4. rewrite Gt in E4. simpl in E4. rewrite Gx in E4. congruence. }
    assert (x5 = imp) as ->.
    { simpl in E5. rewrite Gt in E5. simpl in E5. rewrite Gi in E5. congruence. }
    assert (hashable name = true) as Hh by (eapply key_eqb_hashable; eauto).
    assert (hashable (BgpEvpn.network_instance e) = true) as Hhe.
    { rewrite key_eqb_sym in Hk. eapply key_eqb_hashable; eauto. }
    rewrite device_rows_join; rewrite ?De, ?Dv;
      try (repeat constructor; assumption).
    unfold join_rows, dict_of, dict_keys. simpl.
    rewrite (key_eqb_sym name), Hk, (key_eqb_refl _ Hhe). reflexivity.
Qed.

(** ** The device client *)

(** C3. A failed connection or get does not leave [_get_gnmi_info]: the
    failure is printed and the empty list is returned.  A device one of
    whose record lists is empty has no rows.  And when both calls of a
    device fail, the run goes on with the devices after it, and its rows are
    those of the other devices. *)
Theorem connection_failure_no_rows (net : network) :
  (forall self gnmi_path st e,
     net (length (calls st)) (fetch_call self gnmi_path) = Raised e ->
     _get_gnmi_info net self gnmi_path st =
     (inr [],
      mkState LOGGING_LEVEL_WARNING (stdout st ++ [FailedToConnect e])
              (calls st ++ [fetch_call self gnmi_path]))) /\
  (forall device rows0,
     (bgp_evpn device = [] /\
      hashable_names BgpVpn.network_instance (bgp_vpn device)) \/
     (bgp_vpn device = [] /\
      hashable_names BgpEvpn.network_instance (bgp_evpn device)) ->
     device_rows device rows0 = (inr tt, rows0)) /\
  (forall routers1 r routers2 port u p sv st ds st1 e1 e2,
     let init := fun router =>
       SrlDevice_init net router port DEFAULT_MODEL DEFAULT_RELEASE u p sv in
     let self := mkSrlDevice r port p u sv DEFAULT_MODEL DEFAULT_RELEASE
                             [] [] in
     let st3 :=
       mkState LOGGING_LEVEL_WARNING
               (stdout st1 ++ [FailedToConnect e1; FailedToConnect e2])
               (calls st1 ++ [fetch_call self evpn_path;
                              fetch_call self vpn_path]) in
     map_M init routers1 st = (inr ds, st1) ->
     net (length (calls st1)) (fetch_call self evpn_path) = Raised e1 ->
     net (S (length (calls st1))) (fetch_call self vpn_path) = Raised e2 ->
     init r st1 = (inr self, st3) /\
     main_rows net (routers1 ++ r :: routers2) port u p sv st =
     (ds2 <- map_M init routers2 ;;
      with_local [] (for_each (ds ++ ds2) device_rows)) st3).
Proof.
  split; [|split].
  - intros self gnmi_path st e H. rewrite get_gnmi_info_eq, H. reflexivity.
  - intros device rows0 [[He Hv]|[Hv He]].
    + rewrite device_rows_join; rewrite ?He; try constructor; auto.
      simpl. now rewrite app_nil_r.
    + rewrite device_rows_join; rewrite ?Hv; try constructor; auto.
      unfold join_rows. f_equal. rewrite <- (app_nil_r rows0) at 2. f_equal.
      induction (dict_keys _) as [|k ks IH]; simpl; auto.
  - intros routers1 r routers2 port u p sv st ds st1 e1 e2 init self st3
           Hpre H1 H2.
    assert (init r st1 = (inr self, st3)) as Hinit.
    { unfold init, SrlDevice_init, bind, ret.
      fold self. rewrite get_bgp_evpn_info_eq. cbv zeta. rewrite H1.
      cbn [fetched fst snd evpn_records for_each ret].
      rewrite get_bgp_vpn_info_eq. cbv zeta. cbn [calls stdout].
      rewrite length_app. cbn [length]. rewrite Nat.add_1_r.
      change (fetch_call _ vpn_path) with (fetch_call self vpn_path).
      rewrite H2. cbn [fetched fst snd vpn_records for_each ret].
      unfold st3. now rewrite <- !app_assoc. }
    split; [exact Hinit|].
    unfold main_rows. fold init. unfold bind at 1.
    rewrite map_M_app, Hpre. cbn [map_M]. unfold bind at 1. rewrite Hinit.
    unfold bind, ret.
    destruct (map_M init routers2 st3) as [[e|ds2] st4]; auto.
    unfold with_local. rewrite !for_each_app.
    destruct (for_each ds device_rows []) as [[e|[]] rows1]; reflexivity.
Qed.

(** C6 (as the code has it). The session of [_get_gnmi_info] is opened on
    the router and port of the device with its username and password, but
    with [skip_verify=True] whatever the device was constructed with: for a
    device constructed with [skip_verify=False] the call made still skips
    the verification. *)
Theorem skip_verify_is_ignored (net : network) (gnmi_path : list string)
    (st : state) :
  let self := mkSrlDevice "leaf1" 57400 "secret" "admin" false
                          DEFAULT_MODEL DEFAULT_RELEASE [] [] in
  skip_verify self = false /\
  calls (snd (_get_gnmi_info net self gnmi_path st)) =
  calls st ++ [mkCall (mkSession ("leaf1", 57400) "admin" "secret" true)
                      gnmi_path LOGGING_LEVEL_CRITICAL].
Proof.
  intros self. split; [reflexivity|].
  rewrite get_gnmi_info_eq. reflexivity.
Qed.

(** C7 (amended). Whatever the level of the 'pygnmi' logger before the call
    and whatever the outcome, [_get_gnmi_info] does not raise; the gNMI call
    runs with the level at CRITICAL; after the call the level is WARNING,
    not the level before; the standard output is extended by the lines of
    the call, none when the get returned and the decoding raised nothing. *)
Theorem logging_level_critical_then_warning (net : network)
    (self : SrlDevice) (gnmi_path : list string) (st : state) :
  exists info out c,
    _get_gnmi_info net self gnmi_path st =
    (inr info,
     mkState LOGGING_LEVEL_WARNING (stdout st ++ out) (calls st ++ [c])) /\
    call_level c = LOGGING_LEVEL_CRITICAL /\
    call_path c = gnmi_path /\
    (forall v, net (length (calls st)) c = Returned v ->
               fst (decode v []) = inr tt -> out = []).
Proof.
  rewrite get_gnmi_info_eq. cbv zeta.
  eexists _, _, _. split; [reflexivity|]. repeat split.
  intros v Hv Hd. rewrite Hv. unfold fetched, decoded.
  destruct (decode v []) as [[e|[]] info]; [discriminate|].
  now destruct v.
Qed.

(** C10. Decoding is not atomic: when the get returned a dictionary whose
    notifications decode without error up to one at which the decoding
    raises, [_get_gnmi_info] returns the instances collected when the
    exception was raised, which include those of the notifications before,
    and prints the exception.  At a notification without an 'update' key the
    exception is the [KeyError] and the instances are those of the
    notifications before it. *)
Theorem decode_error_keeps_partial (net : network) (self : SrlDevice)
    (gnmi_path : list string) (st : state) (d : list (string * pyval))
    (ns1 ns2 : list pyval) (bad : pyval) (info1 info2 : list pyval) (e : exn) :
  net (length (calls st)) (fetch_call self gnmi_path) = Returned (PDict d) ->
  dict_get d "notification" = Some (PList (ns1 ++ bad :: ns2)) ->
  for_each ns1 decode_notification [] = (inr tt, info1) ->
  decode_notification bad info1 = (inl e, info2) ->
  _get_gnmi_info net self gnmi_path st =
  (inr info2,
   mkState LOGGING_LEVEL_WARNING
           (stdout st ++ [match e with
                          | KeyError _ => MissingKey e
                          | _ => UnexpectedError e
                          end])
           (calls st ++ [fetch_call self gnmi_path])) /\
  (exists more, info2 = info1 ++ more) /\
  (forall db, bad = PDict db -> dict_get db "update" = None ->
              e = KeyError (PStr "update") /\ info2 = info1).
Proof.
  intros Hnet Hd H1 Hbad. split; [|split].
  - rewrite get_gnmi_info_eq, Hnet. cbv zeta. unfold fetched, decoded.
    assert (decode (PDict d) [] = (inl e, info2)) as ->.
    { unfold decode, bind, lift. simpl. rewrite Hd. simpl.
      now apply for_each_raises with (s1 := info1). }
    now destruct e.
  - destruct (decode_notification_extends bad info1) as [more Hm].
    rewrite Hbad in Hm. eauto.
  - intros db -> Hu. unfold decode_notification, bind, lift in Hbad.
    simpl in Hbad. rewrite Hu in Hbad. now inversion Hbad.
Qed.

(** ** The run *)

(** C2 (amended). When the instances fetched for a device on the EVPN path
    hold a bgp-instance that lacks a required field, [get_bgp_evpn_info]
    raises, and the exception leaves the constructor and [main] as it is:
    the run ends in the state the fetch left, so that nothing is printed for
    it, the VPN path of the device and the devices after it are not queried,
    and no row is produced. *)
Theorem missing_field_aborts_run (net : network)
    (routers1 routers2 : list string) (r : string) (port : Z)
    (u p : string) (sv : bool) (st st1 st2 : state) (ds : list SrlDevice)
    (info l : list pyval) (ni b : pyval) :
  let init := fun router =>
    SrlDevice_init net router port DEFAULT_MODEL DEFAULT_RELEASE u p sv in
  let self := mkSrlDevice r port p u sv DEFAULT_MODEL DEFAULT_RELEASE [] [] in
  map_M init routers1 st = (inr ds, st1) ->
  _get_gnmi_info net self evpn_path st1 = (inr info, st2) ->
  In ni info -> evpn_bgp_instances ni = inr l -> In b l ->
  lacks_required_field ni b ->
  exists e,
    get_bgp_evpn_info net self st1 = (inl e, st2) /\
    main_rows net (routers1 ++ r :: routers2) port u p sv st = (inl e, st2) /\
    calls st2 = calls st1 ++ [fetch_call self evpn_path].
Proof.
  intros init self Hpre Hfetch Hni Hl Hb Hlack.
  destruct (evpn_records_lacking info ni b l Hni Hl Hb Hlack) as [e He].
  assert (get_bgp_evpn_info net self st1 = (inl e, st2)) as Hget.
  { unfold get_bgp_evpn_info, bind. fold evpn_path. rewrite Hfetch.
    unfold with_local. destruct (evpn_records info []) as [[e'|[]] recs];
      simpl in He; congruence. }
  exists e. split; [exact Hget|]. split.
  - unfold main_rows. fold init. unfold bind at 1.
    rewrite map_M_app, Hpre. cbn [map_M]. unfold bind at 1.
    unfold init at 1. unfold SrlDevice_init. unfold bind at 1.
    fold self. now rewrite Hget.
  - rewrite get_gnmi_info_eq in Hfetch. cbv zeta in Hfetch.
    inversion Hfetch. reflexivity.
Qed.

(** ** The properties at the sample devices *)

(** C2 as stated fails: leaf2 has an EVPN bgp-instance without 'evi'; the
    run over leaf1, leaf2 and leaf3 ends with the [KeyError], nothing was
    printed, leaf3 was not queried and there are no rows. *)
Lemma missing_field_run_aborted :
  main_rows Sample.net_leaf2_no_evi ["leaf1"; "leaf2"; "leaf3"]
            57400 "admin" "secret" true Sample.st0 =
  (inl (KeyError (PStr "evi")),
   mkState LOGGING_LEVEL_WARNING []
           [mkCall (mkSession ("leaf1", 57400) "admin" "secret" true)
                   evpn_path LOGGING_LEVEL_CRITICAL;
            mkCall (mkSession ("leaf1", 57400) "admin" "secret" true)
                   vpn_path LOGGING_LEVEL_CRITICAL;
            mkCall (mkSession ("leaf2", 57400) "admin" "secret" true)
                   evpn_path LOGGING_LEVEL_CRITICAL]).
Proof. reflexivity. Qed.

(** C7 as stated fails: after a call that succeeds, the level of the logger
    is WARNING and not the level it had before the call. *)
Lemma logging_level_not_restored :
  pygnmi_level (snd (_get_gnmi_info Sample.net_ok Sample.leaf1 evpn_path
                                    Sample.st0))
  <> pygnmi_level Sample.st0.
Proof. vm_compute. discriminate. Qed.

Lemma missing_field_aborts_run_witness :
  exists e st2,
    main_rows Sample.net_leaf2_no_evi ["leaf1"; "leaf2"; "leaf3"]
              57400 "admin" "secret" true Sample.st0 = (inl e, st2).
Proof.
  edestruct (missing_field_aborts_run Sample.net_leaf2_no_evi
               ["leaf1"] ["leaf3"] "leaf2" 57400 "admin" "secret" true
               Sample.st0) as (e & H1 & H2 & H3).
  - reflexivity.
  - reflexivity.
  - left. reflexivity.
  - reflexivity.
  - left. reflexivity.
  - eexists. split; [reflexivity|]. right. exists "evi".
    split; [simpl; tauto | reflexivity].
  - eexists. eexists. exact H2.
Defined.

Lemma join_is_inner_join_witness :
  hashable_names BgpEvpn.network_instance
                 (bgp_evpn Sample.leaf_with_duplicates) /\
  hashable_names BgpVpn.network_instance
                 (bgp_vpn Sample.leaf_with_duplicates) /\
  exists new,
    device_rows Sample.leaf_with_duplicates [] = (inr tt, new) /\
    (length new <= 2)%nat.
Proof.
  assert (hashable_names BgpEvpn.network_instance
            (bgp_evpn Sample.leaf_with_duplicates)) as He
    by (repeat constructor).
  assert (hashable_names BgpVpn.network_instance
            (bgp_vpn Sample.leaf_with_duplicates)) as Hv
    by (repeat constructor).
  split; [exact He|]. split; [exact Hv|].
  destruct (join_is_inner_join Sample.leaf_with_duplicates [] He Hv)
    as (de & dv & new & _ & _ & Hrows & Hlen & _).
  exists new. split; [exact Hrows|]. simpl in Hlen. exact Hlen.
Defined.

Lemma join_last_write_wins_witness :
  hashable_names BgpEvpn.network_instance
                 (bgp_evpn Sample.leaf_with_duplicates) /\
  hashable_names BgpVpn.network_instance
                 (bgp_vpn Sample.leaf_with_duplicates) /\
  exists de new r,
    dict_comprehension BgpEvpn.network_instance
                       (bgp_evpn Sample.leaf_with_duplicates) = inr de /\
    dict_lookup de (PStr "default") = Some (Sample.evpn_record "default" 2) /\
    device_rows Sample.leaf_with_duplicates [] = (inr tt, new) /\
    In r new /\
    r = joined_row Sample.leaf_with_duplicates (row_instance r)
                   (Sample.evpn_record "default" 2)
                   (Sample.vpn_record "default" 1).
Proof.
  assert (hashable_names BgpEvpn.network_instance
            (bgp_evpn Sample.leaf_with_duplicates)) as He
    by (repeat constructor).
  assert (hashable_names BgpVpn.network_instance
            (bgp_vpn Sample.leaf_with_duplicates)) as Hv
    by (repeat constructor).
  split; [exact He|]. split; [exact Hv|].
  destruct (join_last_write_wins Sample.leaf_with_duplicates [] He Hv)
    as (de & dv & new & Hde & _ & Hl & _ & Hrows & _ & Hlast).
  destruct (Hlast (PStr "default") (Sample.evpn_record "default" 2)
                  (Sample.vpn_record "default" 1) eq_refl eq_refl)
    as (r & Hin & _ & Hr).
  exists de, new, r. split; [exact Hde|].
  split; [rewrite Hl; reflexivity|].
  split; [exact Hrows|]. split; [exact Hin | exact Hr].
Defined.

Lemma oper_state_default_witness :
  evpn_bgp_instance (Sample.evpn_instance "default" []) Sample.evpn_no_oper [] =
  (inr tt, [BgpEvpn.mk (PStr "default") (PInt 1) (PStr "enable")
                       (PStr "vxlan1.1") (PInt 10) (PInt 2)
                       (PStr "no state")]).
Proof.
  apply (proj1 (oper_state_default (Sample.evpn_instance "default" [])
                  Sample.evpn_fields (PStr "default") (PInt 1) (PStr "enable")
                  (PStr "vxlan1.1") (PInt 10) (PInt 2) []
                  eq_refl eq_refl eq_refl eq_refl eq_refl eq_refl)).
  reflexivity.
Defined.

Lemma vpn_fields_safe_lookup_witness :
  absent_or_dict Sample.vpn_fields "route-distinguisher" /\
  absent_or_dict Sample.vpn_fields "route-target" /\
  exists r,
    vpn_bgp_instance (Sample.vpn_instance "default" [])
                     (PDict Sample.vpn_fields) [] = (inr tt, [r]) /\
    safe_nested_lookup Sample.vpn_fields "route-distinguisher" "rd"
                       (BgpVpn.rd r).
Proof.
  assert (absent_or_dict Sample.vpn_fields "route-distinguisher") as H1
    by (intros x Hx; discriminate Hx).
  assert (absent_or_dict Sample.vpn_fields "route-target") as H2
    by (intros x Hx; inversion Hx; eexists; reflexivity).
  split; [exact H1|]. split; [exact H2|].
  destruct (vpn_fields_safe_lookup (Sample.vpn_instance "default" [])
              Sample.vpn_fields (PStr "default") (PInt 1) []
              eq_refl eq_refl H1 H2) as (r & Hr & _ & _ & Hrd & _).
  exists r. split; [exact Hr | exact Hrd].
Defined.

Lemma extraction_twice_same_records_witness :
  fst (get_bgp_evpn_info Sample.net_ok Sample.leaf1
         (snd (get_bgp_evpn_info Sample.net_ok Sample.leaf1 Sample.st0))) =
  fst (get_bgp_evpn_info Sample.net_ok Sample.leaf1 Sample.st0).
Proof.
  apply (proj1 (extraction_twice_same_records Sample.net_ok Sample.leaf1
                  Sample.st0)).
  reflexivity.
Defined.

Lemma connection_failure_no_rows_witness :
  exists st1 st3,
    SrlDevice_init Sample.net_leaf2_down "leaf2" 57400 DEFAULT_MODEL
                   DEFAULT_RELEASE "admin" "secret" true st1 =
    (inr (mkSrlDevice "leaf2" 57400 "secret" "admin" true DEFAULT_MODEL
                      DEFAULT_RELEASE [] []), st3) /\
    stdout st3 = [FailedToConnect (OtherException "FutureTimeoutError");
                  FailedToConnect (OtherException "FutureTimeoutError")] /\
    main_rows Sample.net_leaf2_down ["leaf1"; "leaf2"; "leaf3"]
              57400 "admin" "secret" true Sample.st0 =
    (ds2 <- map_M (fun router =>
                     SrlDevice_init Sample.net_leaf2_down router 57400
                       DEFAULT_MODEL DEFAULT_RELEASE "admin" "secret" true)
                  ["leaf3"] ;;
     with_local []
       (for_each (fst (Sample.devices_before_leaf2) ++ ds2) device_rows)) st3.
Proof.
  edestruct (proj2 (proj2 (connection_failure_no_rows Sample.net_leaf2_down))
               ["leaf1"] "leaf2" ["leaf3"] 57400 "admin" "secret" true
               Sample.st0 (fst Sample.devices_before_leaf2)
               (snd Sample.devices_before_leaf2))
    as [Hinit Hmain].
  - reflexivity.
  - reflexivity.
  - reflexivity.
  - eexists. eexists. split; [exact Hinit|]. split; [reflexivity|].
    exact Hmain.
Defined.

Lemma decode_error_keeps_partial_witness :
  fst (_get_gnmi_info Sample.net_truncated Sample.leaf1 evpn_path Sample.st0)
  = inr [Sample.evpn_instance "default" [Sample.evpn_up]].
Proof.
  edestruct (decode_error_keeps_partial Sample.net_truncated Sample.leaf1
               evpn_path Sample.st0
               [("notification",
                 PList ([Sample.notification
                           [Sample.evpn_instance "default" [Sample.evpn_up]]]
                        ++ PDict []
                        :: [Sample.notification
                              [Sample.evpn_instance "mgmt" [Sample.evpn_up]]]))]
               [Sample.notification
                  [Sample.evpn_instance "default" [Sample.evpn_up]]]
               [Sample.notification
                  [Sample.evpn_instance "mgmt" [Sample.evpn_up]]]
               (PDict [])) as (H1 & H2 & H3).
  - reflexivity.
  - reflexivity.
  - reflexivity.
  - reflexivity.
  - rewrite H1. reflexivity.
Defined.

(** * Further properties *)

(** ** Decoding a well-formed response *)

(** A loop whose body appends, at each element, the list a relation gives
    for it. *)
Lemma for_each_forall2 {A B} (R : A -> list B -> Prop)
    (body : A -> M (list B) unit) (xs : list A) (ls : list (list B)) :
  Forall2 R xs ls ->
  (forall x l acc, R x l -> body x acc = (inr tt, acc ++ l)) ->
  forall acc, for_each xs body acc = (inr tt, acc ++ concat ls).
Proof.
  intros HF Hb. induction HF as [|x l xs ls Hx _ IH]; intros acc; simpl.
  - now rewrite app_nil_r.
  - unfold bind. rewrite (Hb x l acc Hx), IH. now rewrite app_assoc.
Qed.

Lemma for_each_append {A} (l acc : list A) :
  for_each l append acc = (inr tt, acc ++ l).
Proof.
  revert acc. induction l as [|x l IH]; intros acc; simpl.
  - now rewrite app_nil_r.
  - unfold bind, append, modify. rewrite IH. now rewrite <- app_assoc.
Qed.

Lemma decode_update_instances (update : pyval) (l acc : list pyval) :
  update_instances update l ->
  decode_update update acc = (inr tt, acc ++ l).
Proof.
  intros H. unfold decode_update, bind, lift.
  destruct H as [update val Hv Hc | update val nis l Hv Hc Hg Hi];
    rewrite Hv, Hc.
  - unfold ret. now rewrite app_nil_r.
  - rewrite Hg, Hi. apply for_each_append.
Qed.

Lemma decode_notification_instances (notification : pyval)
    (l acc : list pyval) :
  notification_instances notification l ->
  decode_notification notification acc = (inr tt, acc ++ l).
Proof.
  intros [n updates us ls Hu Hi HF].
  unfold decode_notification, bind, lift. rewrite Hu, Hi.
  apply (for_each_forall2 update_instances); auto.
  intros x l' acc' Hx. now apply decode_update_instances.
Qed.

(** X1. When the get returns a response whose notifications and updates are
    all well formed, [_get_gnmi_info] returns the network instances of all
    updates in the order of the response, an update without the collection
    key contributing nothing, and prints nothing. *)
Theorem well_formed_response_flattened (net : network) (self : SrlDevice)
    (gnmi_path : list string) (st : state) (result notifications : pyval)
    (ns : list pyval) (lss : list (list pyval)) :
  net (length (calls st)) (fetch_call self gnmi_path) = Returned result ->
  py_getitem result "notification" = inr notifications ->
  py_iter notifications = inr ns ->
  Forall2 notification_instances ns lss ->
  _get_gnmi_info net self gnmi_path st =
  (inr (concat lss),
   mkState LOGGING_LEVEL_WARNING (stdout st)
           (calls st ++ [fetch_call self gnmi_path])).
Proof.
  intros Hnet Hg Hi HF. rewrite get_gnmi_info_eq, Hnet. cbv zeta.
  assert (decode result [] = (inr tt, concat lss)) as Hd.
  { unfold decode, bind, lift. rewrite Hg, Hi.
    apply (for_each_forall2 notification_instances _ ns lss HF).
    intros x l acc Hx. now apply decode_notification_instances. }
  unfold fetched, decoded. rewrite Hd.
  destruct result; simpl in Hg; try discriminate.
  cbn [fst snd]. now rewrite app_nil_r.
Qed.

(** ** Extraction from well-formed instances *)

Lemma evpn_bgp_instance_record (ni name : pyval) (d : list (string * pyval))
    (r : BgpEvpn.t) (acc : list BgpEvpn.t) :
  py_getitem ni "name" = inr name ->
  evpn_record_of name d = Some r ->
  evpn_bgp_instance ni (PDict d) acc = (inr tt, acc ++ [r]).
Proof.
  intros Hn Hr. unfold evpn_record_of in Hr.
  destruct (dict_get d "id") as [a2|] eqn:E2; [|discriminate].
  destruct (dict_get d "admin-state") as [a3|] eqn:E3; [|discriminate].
  destruct (dict_get d "vxlan-interface") as [a4|] eqn:E4; [|discriminate].
  destruct (dict_get d "evi") as [a5|] eqn:E5; [|discriminate].
  destruct (dict_get d "ecmp") as [a6|] eqn:E6; [|discriminate].
  injection Hr as <-.
  unfold evpn_bgp_instance, bind, lift, append, modify, py_contains,
         py_getitem.
  fold (py_getitem ni "name").
  destruct (dict_get d "oper-state") as [v|] eqn:Eo; cbn [negb];
    rewrite Hn, E2, E3, E4, E5, E6; reflexivity.
Qed.

Lemma evpn_records_of_instances (info : list pyval)
    (rss : list (list BgpEvpn.t)) (acc : list BgpEvpn.t) :
  Forall2 evpn_instance_records info rss ->
  evpn_records info acc = (inr tt, acc ++ concat rss).
Proof.
  intros HF. unfold evpn_records.
  apply (for_each_forall2 evpn_instance_records _ info rss HF).
  intros ni rs acc' [ni' Hl | ni' name l rs' Hl Hn Hrs];
    unfold bind, lift; rewrite Hl.
  - simpl. unfold ret. now rewrite app_nil_r.
  - clear Hl. revert acc'.
    induction Hrs as [|b r l rs' (d & -> & Hr) _ IH]; intros acc'; simpl.
    + unfold ret. now rewrite app_nil_r.
    + unfold bind. rewrite (evpn_bgp_instance_record ni' name d r acc' Hn Hr).
      rewrite IH. now rewrite <- app_assoc.
Qed.

(** X2. When every fetched network instance of the EVPN path is well
    formed, [get_bgp_evpn_info] raises nothing and returns one record per
    bgp-instance, in the order of the response; each record carries the
    name of its network instance, the five fields, and the 'oper-state' or
    "no state".  A network instance without bgp-instance needs no name. *)
Theorem evpn_records_in_source_order (net : network) (self : SrlDevice)
    (st st' : state) (info : list pyval) (rss : list (list BgpEvpn.t)) :
  _get_gnmi_info net self evpn_path st = (inr info, st') ->
  Forall2 evpn_instance_records info rss ->
  get_bgp_evpn_info net self st = (inr (concat rss), st').
Proof.
  intros Hf HF. unfold get_bgp_evpn_info, bind. fold evpn_path. rewrite Hf.
  unfold with_local. now rewrite (evpn_records_of_instances info rss [] HF).
Qed.

Lemma nested_get_eval (d : list (string * pyval)) (outer inner : string)
    (x : pyval) :
  nested_get d outer inner = Some x ->
  rbind (py_get_or_empty (PDict d) outer) (fun o => py_get o inner) = inr x.
Proof.
  unfold nested_get. simpl.
  destruct (dict_get d outer) as [[| | | | |d']|]; simpl; try discriminate;
    now intros [= <-].
Qed.

Lemma vpn_bgp_instance_record (ni name : pyval) (d : list (string * pyval))
    (r : BgpVpn.t) (acc : list BgpVpn.t) :
  py_getitem ni "name" = inr name ->
  vpn_record_of name d = Some r ->
  vpn_bgp_instance ni (PDict d) acc = (inr tt, acc ++ [r]).
Proof.
  intros Hn Hr. unfold vpn_record_of in Hr.
  destruct (dict_get d "id") as [a2|] eqn:E2; [|discriminate].
  destruct (nested_get d "route-distinguisher" "rd") as [a3|] eqn:E3;
    [|discriminate].
  destruct (nested_get d "route-target" "export-rt") as [a4|] eqn:E4;
    [|discriminate].
  destruct (nested_get d "route-target" "import-rt") as [a5|] eqn:E5;
    [|discriminate].
  injection Hr as <-.
  apply nested_get_eval in E3, E4, E5. unfold rbind in E3, E4, E5.
  unfold vpn_bgp_instance, bind, lift, append, modify. rewrite Hn.
  unfold py_getitem at 1. rewrite E2.
  destruct (py_get_or_empty (PDict d) "route-distinguisher") as [?|o3];
    [discriminate|]. rewrite E3.
  destruct (py_get_or_empty (PDict d) "route-target") as [?|o4];
    [discriminate|]. rewrite E4, E5. reflexivity.
Qed.

Lemma vpn_records_of_instances (info : list pyval)
    (rss : list (list BgpVpn.t)) (acc : list BgpVpn.t) :
  Forall2 vpn_instance_records info rss ->
  vpn_records info acc = (inr tt, acc ++ concat rss).
Proof.
  intros HF. unfold vpn_records.
  apply (for_each_forall2 vpn_instance_records _ info rss HF).
  intros ni rs acc' [ni' Hl | ni' name l rs' Hl Hn Hrs];
    unfold bind, lift; rewrite Hl.
  - simpl. unfold ret. now rewrite app_nil_r.
  - clear Hl. revert acc'.
    induction Hrs as [|b r l rs' (d & -> & Hr) _ IH]; intros acc'; simpl.
    + unfold ret. now rewrite app_nil_r.
    + unfold bind. rewrite (vpn_bgp_instance_record ni' name d r acc' Hn Hr).
      rewrite IH. now rewrite <- app_assoc.
Qed.

(** X3. When every fetched network instance of the VPN path is well formed
    (each bgp-instance has an id, and its 'route-distinguisher' and
    'route-target' are absent or dictionaries), [get_bgp_vpn_info] raises
    nothing and returns one record per bgp-instance, in the order of the
    response. *)
Theorem vpn_records_in_source_order (net : network) (self : SrlDevice)
    (st st' : state) (info : list pyval) (rss : list (list BgpVpn.t)) :
  _get_gnmi_info net self vpn_path st = (inr info, st') ->
  Forall2 vpn_instance_records info rss ->
  get_bgp_vpn_info net self st = (inr (concat rss), st').
Proof.
  intros Hf HF. unfold get_bgp_vpn_info, bind. fold vpn_path. rewrite Hf.
  unfold with_local. now rewrite (vpn_records_of_instances info rss [] HF).
Qed.

(** X4. The nested lookup is safe against an absent field only: for a
    bgp-instance with an id, in a network instance with a name, a
    'route-distinguisher' or 'route-target' that is present but is not a
    dictionary (a null, a string) makes the extraction raise
    [AttributeError], and no record is appended. *)
Theorem vpn_field_not_a_dict_raises (ni name a2 x : pyval)
    (d : list (string * pyval)) (acc : list BgpVpn.t) :
  py_getitem ni "name" = inr name ->
  dict_get d "id" = Some a2 ->
  not_a_dict x ->
  dict_get d "route-distinguisher" = Some x \/
  dict_get d "route-target" = Some x ->
  vpn_bgp_instance ni (PDict d) acc = (inl AttributeError, acc).
Proof.
  intros Hn H2 Hx H.
  unfold vpn_bgp_instance, bind, lift. rewrite Hn.
  unfold py_getitem at 1. rewrite H2. simpl.
  destruct H as [H|H].
  - rewrite H. destruct x; simpl; try reflexivity. contradiction.
  - rewrite H.
    destruct (dict_get d "route-distinguisher") as [[| | | | |d']|];
      simpl; try reflexivity;
      destruct x; simpl; try reflexivity; contradiction.
Qed.

(** ** Order and failure of the join *)

Lemma filter_filter_andb {A} (f g : A -> bool) (l : list A) :
  filter f (filter g l) = filter (fun x => g x && f x) l.
Proof.
  induction l as [|x l IH]; simpl; auto.
  destruct (g x); simpl; [destruct (f x)|]; now rewrite IH.
Qed.

Lemma filter_all {A} (f : A -> bool) (l : list A) :
  (forall x, f x = true) -> filter f l = l.
Proof.
  intros H. induction l as [|x l IH]; simpl; auto. now rewrite H, IH.
Qed.

(** The keys of a dictionary are in the order of their first insertion. *)
Lemma dict_of_keys {V} (key : V -> pyval) (d : list (pyval * V))
    (items : list V) :
  dict_keys (dict_of key d items) =
  dict_keys d ++ filter (fun k => negb (dict_mem d k))
                        (first_occurrences (map key items)).
Proof.
  revert d. induction items as [|x l IH]; intros d.
  - simpl. now rewrite app_nil_r.
  - change (dict_of key d (x :: l))
      with (dict_of key (dict_set d (key x) x) l).
    rewrite IH, dict_keys_set. cbn [map first_occurrences filter].
    rewrite filter_filter_andb.
    rewrite (filter_ext (fun k => negb (dict_mem (dict_set d (key x) x) k))
                        (fun k => negb (key_eqb (key x) k) &&
                                  negb (dict_mem d k))).
    + destruct (dict_mem d (key x)); simpl; auto.
      now rewrite <- app_assoc.
    + intros k. unfold dict_mem. rewrite dict_lookup_set.
      now destruct (key_eqb (key x) k).
Qed.

Lemma join_rows_order (device : SrlDevice) (de : list (pyval * BgpEvpn.t))
    (dv : list (pyval * BgpVpn.t)) (ks : list pyval) :
  (forall k, In k ks -> dict_lookup de k <> None) ->
  map row_instance (join_rows device de dv ks) = filter (dict_mem dv) ks.
Proof.
  unfold join_rows, dict_mem. induction ks as [|k ks IH]; intros H; auto.
  simpl. rewrite map_app, IH by (intros; apply H; now right).
  specialize (H k (or_introl eq_refl)).
  destruct (dict_lookup dv k), (dict_lookup de k); try tauto; reflexivity.
Qed.

Lemma join_rows_shape (device : SrlDevice) (de : list (pyval * BgpEvpn.t))
    (dv : list (pyval * BgpVpn.t)) (ks : list pyval) :
  Forall (fun r => nth 0 r PNone = PStr (router device) /\
                   length r = 11%nat)
         (join_rows device de dv ks).
Proof.
  unfold join_rows. induction ks as [|k ks IH]; simpl; auto.
  apply Forall_app. split; auto.
  destruct (dict_lookup dv k), (dict_lookup de k); auto.
Qed.

(** X5. The rows of a device come in the order in which the names first
    occur in its EVPN records, the names without VPN record left out; every
    row has eleven cells and the router of the device as the first. *)
Theorem join_rows_in_evpn_order (device : SrlDevice) (rows0 : list row) :
  hashable_names BgpEvpn.network_instance (bgp_evpn device) ->
  hashable_names BgpVpn.network_instance (bgp_vpn device) ->
  exists new,
    device_rows device rows0 = (inr tt, rows0 ++ new) /\
    map row_instance new =
    filter (named BgpVpn.network_instance (bgp_vpn device))
           (first_occurrences
              (map BgpEvpn.network_instance (bgp_evpn device))) /\
    Forall (fun r => nth 0 r PNone = PStr (router device) /\
                     length r = 11%nat) new.
Proof.
  intros He Hv. exists (device_join device).
  split; [now apply device_rows_join|]. split; [|apply join_rows_shape].
  unfold device_join.
  set (de := dict_of BgpEvpn.network_instance [] (bgp_evpn device)).
  set (dv := dict_of BgpVpn.network_instance [] (bgp_vpn device)).
  assert (distinct_keys (dict_keys de)) as Hde
    by (apply dict_of_distinct; simpl; auto).
  rewrite join_rows_order.
  - unfold de at 1. rewrite dict_of_keys. simpl.
    rewrite (filter_all
               (fun k => negb (dict_mem (@nil (pyval * BgpEvpn.t)) k)))
      by reflexivity.
    apply filter_ext. intros k. apply dict_of_mem.
  - intros k Hin. destruct (dict_lookup_key de k Hde Hin) as [e Hl].
    congruence.
Qed.

Lemma dict_comprehension_from_unhashable {V} (key : V -> pyval)
    (d : list (pyval * V)) (items : list V) :
  forallb (fun item => hashable (key item)) items = false ->
  dict_comprehension_from key d items = inl TypeError.
Proof.
  revert d. induction items as [|x l IH]; intros d; simpl; [discriminate|].
  destruct (hashable (key x)); simpl; auto.
Qed.

Lemma forallb_hashable_names {V} (key : V -> pyval) (items : list V) :
  forallb (fun item => hashable (key item)) items = true ->
  hashable_names key items.
Proof.
  intros H. apply Forall_forall. intros x Hx.
  exact (proj1 (forallb_forall _ _) H x Hx).
Qed.

(** X6. A record whose name cannot be a dictionary key (a list or a
    dictionary) makes the join of its device raise [TypeError]; no row of
    the device is appended. *)
Theorem unhashable_name_raises (device : SrlDevice) (rows0 : list row) :
  forallb (fun e => hashable (BgpEvpn.network_instance e))
          (bgp_evpn device) &&
  forallb (fun v => hashable (BgpVpn.network_instance v))
          (bgp_vpn device) = false ->
  device_rows device rows0 = (inl TypeError, rows0).
Proof.
  intros H. unfold device_rows, dict_comprehension, bind, lift.
  destruct (forallb _ (bgp_evpn device)) eqn:Ee; simpl in H.
  - rewrite (dict_comprehension_from_ok _ _ _
               (forallb_hashable_names _ _ Ee)).
    now rewrite (dict_comprehension_from_unhashable _ _ _ H).
  - now rewrite (dict_comprehension_from_unhashable _ _ _ Ee).
Qed.

(** ** The run over the roster *)

Section Run.

Variable net : network.
Variables (gnmi_port : Z) (usr pwd : string) (skip : bool).

(** A constructed device keeps the arguments of the constructor; its
    construction made the two calls of the router and left the level of the
    logger at WARNING. *)
Lemma SrlDevice_init_ok (r : string) (st st1 : state) (d : SrlDevice) :
  construct net gnmi_port usr pwd skip r st = (inr d, st1) ->
  router d = r /\ port d = gnmi_port /\ username d = usr /\
  password d = pwd /\ skip_verify d = skip /\
  calls st1 = calls st ++ router_calls gnmi_port usr pwd r /\
  pygnmi_level st1 = LOGGING_LEVEL_WARNING.
Proof.
  unfold construct, SrlDevice_init, bind, ret.
  rewrite get_bgp_evpn_info_eq. cbv zeta.
  destruct (evpn_records _ []) as [[e|[]] evpn]; [discriminate|].
  rewrite get_bgp_vpn_info_eq. cbv zeta.
  destruct (vpn_records _ []) as [[e|[]] vpn]; [discriminate|].
  intros [= <- <-]. cbn [router port username password skip_verify
                         calls pygnmi_level].
  repeat split. now rewrite <- app_assoc.
Qed.

Lemma map_M_init_ok (routers : list string) (st st1 : state)
    (ds : list SrlDevice) :
  map_M (construct net gnmi_port usr pwd skip) routers st = (inr ds, st1) ->
  map router ds = routers /\
  calls st1 = calls st ++ flat_map (router_calls gnmi_port usr pwd) routers.
Proof.
  revert st ds. induction routers as [|r routers IH]; intros st ds; simpl.
  - unfold ret. intros [= <- <-]. now rewrite app_nil_r.
  - unfold bind, ret.
    destruct (construct net gnmi_port usr pwd skip r st)
      as [[e|d] st2] eqn:Ed; [discriminate|].
    destruct (map_M (construct net gnmi_port usr pwd skip) routers st2)
      as [[e|ds'] st3] eqn:Eds; [discriminate|].
    intros [= <- <-].
    destruct (SrlDevice_init_ok r st st2 d Ed)
      as (Hr & _ & _ & _ & _ & Hc & _).
    destruct (IH st2 ds' Eds) as [Hm Hcs].
    split.
    + simpl. now rewrite Hr, Hm.
    + rewrite Hcs, Hc. now rewrite <- app_assoc.
Qed.

Lemma for_each_device_rows (ds : list SrlDevice) (acc : list row) :
  Forall (fun d =>
            hashable_names BgpEvpn.network_instance (bgp_evpn d) /\
            hashable_names BgpVpn.network_instance (bgp_vpn d)) ds ->
  for_each ds device_rows acc = (inr tt, acc ++ flat_map device_join ds).
Proof.
  intros H. apply for_each_appends. intros d acc' Hin.
  destruct (proj1 (Forall_forall _ _) H d Hin) as [He Hv].
  now apply device_rows_join.
Qed.

(** X7. When every device of the roster is constructed and the names of
    its records can be dictionary keys, the rows of the run are the rows of
    the devices one device after the other, in the order of the roster. *)
Theorem rows_in_roster_order (routers : list string) (st st1 : state)
    (ds : list SrlDevice) :
  map_M (construct net gnmi_port usr pwd skip) routers st = (inr ds, st1) ->
  Forall (fun d =>
            hashable_names BgpEvpn.network_instance (bgp_evpn d) /\
            hashable_names BgpVpn.network_instance (bgp_vpn d)) ds ->
  main_rows net routers gnmi_port usr pwd skip st
  = (inr (flat_map device_join ds), st1) /\
  map router ds = routers.
Proof.
  intros Hds Hh. split; [|exact (proj1 (map_M_init_ok _ _ _ _ Hds))].
  unfold main_rows, bind.
  change (fun router => SrlDevice_init net router gnmi_port DEFAULT_MODEL
                          DEFAULT_RELEASE usr pwd skip)
    with (construct net gnmi_port usr pwd skip).
  rewrite Hds.
  unfold with_local. now rewrite (for_each_device_rows ds [] Hh).
Qed.

(** X8. A run that produces its rows has queried every router of the
    roster twice, in the order of the roster, the EVPN path before the VPN
    path, each call in a session of its own opened with the shared port and
    credentials while the logger was at CRITICAL; it made no other call. *)
Theorem run_calls_two_per_router (routers : list string) (st st1 : state)
    (rows : list row) :
  main_rows net routers gnmi_port usr pwd skip st = (inr rows, st1) ->
  calls st1 = calls st ++ flat_map (router_calls gnmi_port usr pwd) routers.
Proof.
  unfold main_rows, bind.
  change (fun router => SrlDevice_init net router gnmi_port DEFAULT_MODEL
                          DEFAULT_RELEASE usr pwd skip)
    with (construct net gnmi_port usr pwd skip).
  destruct (map_M (construct net gnmi_port usr pwd skip) routers st)
    as [[e|ds] st2] eqn:Eds; [discriminate|].
  unfold with_local.
  destruct (for_each ds device_rows []) as [[e|[]] rows']; [discriminate|].
  intros [= <- <-]. exact (proj2 (map_M_init_ok _ _ _ _ Eds)).
Qed.

End Run.

(** ** Highlighting *)

Lemma replace_nth_length (p : nat) (x : pyval) (l : list pyval) :
  length (replace_nth p x l) = length l.
Proof.
  revert p. induction l as [|y l IH]; intros [|p]; simpl; auto.
Qed.

Lemma replace_nth_same (p : nat) (x : pyval) (l : list pyval) :
  (p < length l)%nat -> nth p (replace_nth p x l) PNone = x.
Proof.
  revert p. induction l as [|y l IH]; intros [|p]; simpl; try lia; auto.
  intros H. apply IH. lia.
Qed.

Lemma replace_nth_other (p q : nat) (x : pyval) (l : list pyval) :
  q <> p -> nth q (replace_nth p x l) PNone = nth q l PNone.
Proof.
  revert p q. induction l as [|y l IH]; intros [|p] [|q]; simpl; auto;
    try congruence.
Qed.

Lemma list_position_lt (n : nat) (i : Z) (p : nat) :
  list_position n i = Some p -> (p < n)%nat.
Proof.
  unfold list_position.
  destruct ((0 <=? i) && (i <? Z.of_nat n)) eqn:E1.
  - intros [= <-]. apply andb_true_iff in E1 as [H1 H2]. lia.
  - destruct ((- Z.of_nat n <=? i) && (i <? 0)) eqn:E2; [|discriminate].
    intros [= <-]. apply andb_true_iff in E2 as [H1 H2]. lia.
Qed.

Section HighlightProperties.

Variable py_repr : pyval -> string.
Variable column_to_check : Z.

Lemma highlight_row_ok (row : list pyval) (st : pyval * bool) :
  has_column column_to_check row = true ->
  exists row' st',
    highlight_row py_repr column_to_check row st = (inr row', st') /\
    highlighted_or_same py_repr column_to_check row row'.
Proof.
  unfold has_column. destruct st as [prev sw].
  destruct (list_position (length row) column_to_check) as [p|] eqn:Ep;
    [intros _|discriminate].
  pose proof (list_position_lt _ _ _ Ep) as Hlt.
  assert (highlighted_or_same py_repr column_to_check row row) as Hsame.
  { exists p. repeat split; auto. }
  assert (highlighted_or_same py_repr column_to_check row
            (replace_nth p
               (PStr (highlighted (py_str py_repr (nth p row PNone)))) row))
    as Hpainted.
  { exists p. repeat split; auto using replace_nth_length.
    - intros q Hq. now apply replace_nth_other.
    - right. now apply replace_nth_same. }
  unfold highlight_row.
  destruct prev, sw; cbv zeta; unfold rbind, list_getitem, list_setitem;
    rewrite ?Ep;
    try match goal with
        | |- context [py_eqb ?a ?b] => destruct (py_eqb a b)
        end;
    cbn [negb]; rewrite ?replace_nth_length, ?Ep;
    eexists _, _; (split; [reflexivity | assumption]).
Qed.

Lemma highlight_row_short (row : list pyval) (st : pyval * bool) :
  has_column column_to_check row = false ->
  exists st', highlight_row py_repr column_to_check row st
              = (inl IndexError, st').
Proof.
  unfold has_column. destruct st as [prev sw].
  destruct (list_position (length row) column_to_check) as [p|] eqn:Ep;
    [discriminate|intros _].
  unfold highlight_row.
  destruct prev, sw; cbv zeta; unfold rbind, list_getitem, list_setitem;
    rewrite ?Ep; eexists; reflexivity.
Qed.

(** X9. When every row has the column, [highlight_alternate_groups] raises
    nothing and returns as many rows; every row keeps its length and all its
    cells but the one of the column, which is left as it was or replaced by
    its highlighted text. *)
Theorem highlight_changes_one_column (rows : list (list pyval)) :
  forallb (has_column column_to_check) rows = true ->
  exists rows',
    highlight_alternate_groups py_repr rows column_to_check = inr rows' /\
    Forall2 (highlighted_or_same py_repr column_to_check) rows rows'.
Proof.
  unfold highlight_alternate_groups. generalize (PNone, false).
  induction rows as [|row rows IH]; intros st H; simpl in *.
  - exists []. split; [reflexivity|constructor].
  - apply andb_true_iff in H as [Hrow Hrows].
    destruct (highlight_row_ok row st Hrow) as (row' & st' & Hr & Hf).
    destruct (IH st' Hrows) as (rows' & Hrs & HF).
    exists (row' :: rows'). split; [|now constructor].
    unfold bind, ret. rewrite Hr.
    destruct (map_M _ rows st') as [[e|ys] st'']; simpl in Hrs;
      [discriminate|]. simpl. congruence.
Qed.

(** X10. When some row has not the column, [highlight_alternate_groups]
    raises [IndexError], also when no row is to be highlighted. *)
Theorem highlight_short_row_raises (rows : list (list pyval)) :
  forallb (has_column column_to_check) rows = false ->
  highlight_alternate_groups py_repr rows column_to_check = inl IndexError.
Proof.
  unfold highlight_alternate_groups. generalize (PNone, false).
  induction rows as [|row rows IH]; intros st H; simpl in *;
    [discriminate|].
  unfold bind, ret.
  destruct (has_column column_to_check row) eqn:Hrow; simpl in H.
  - destruct (highlight_row_ok row st Hrow) as (row' & st' & Hr & _).
    rewrite Hr. specialize (IH st' H).
    destruct (map_M _ rows st') as [[e|ys] st'']; simpl in IH;
      [simpl; congruence | discriminate].
  - destruct (highlight_row_short row st Hrow) as (st' & Hr).
    now rewrite Hr.
Qed.

End HighlightProperties.

Lemma highlighted_not_escape_free (b c : string) :
  escape_free c = true -> String.eqb (highlighted b) c = false.
Proof.
  unfold highlighted, escape_free. destruct c as [|ch c]; [reflexivity|].
  intros H. apply negb_true_iff in H. cbn [String.eqb].
  now rewrite Ascii.eqb_sym, H.
Qed.

Section HighlightTexts.

Variable py_repr : pyval -> string.
Variable column_to_check : Z.

Lemma highlight_row_text (row : list pyval) (c : string)
    (prev : option (string * bool)) :
  list_getitem row column_to_check = inr (PStr c) ->
  escape_free c = true ->
  exists row',
    highlight_row py_repr column_to_check row (highlight_state prev) =
    (inr row',
     highlight_state
       (Some (c, match highlight_flags prev [c] with
                 | h :: _ => h
                 | [] => false
                 end))) /\
    [list_getitem row' column_to_check] = highlighted_cells prev [c].
Proof.
  intros Hc Hfree. unfold list_getitem in Hc.
  destruct (list_position (length row) column_to_check) as [p|] eqn:Ep;
    [|discriminate].
  injection Hc as Hc.
  pose proof (list_position_lt _ _ _ Ep) as Hlt.
  unfold highlighted_cells, highlight_row.
  destruct prev as [[b [|]]|]; cbn [highlight_state highlight_flags negb
                                    andb combine map fst snd];
    cbv zeta; unfold rbind, list_getitem, list_setitem; rewrite ?Ep, ?Hc;
    cbn [py_eqb].
  - rewrite (highlighted_not_escape_free b c Hfree). cbn [negb].
    rewrite Ep, Hc. eexists. split; [reflexivity|].
    unfold list_getitem. now rewrite Ep, Hc.
  - destruct (String.eqb b c); cbn [negb].
    + rewrite Ep, Hc. eexists. split; [reflexivity|].
      unfold list_getitem. now rewrite Ep, Hc.
    + rewrite replace_nth_length, Ep, replace_nth_same by assumption.
      cbn [py_str]. eexists. split; [reflexivity|].
      unfold list_getitem.
      now rewrite replace_nth_length, Ep, replace_nth_same by assumption.
  - eexists. split; [reflexivity|].
    unfold list_getitem. now rewrite Ep, Hc.
Qed.

(** X11. On rows whose cells in the column are texts that do not begin with
    the escape character, nothing is raised, the cell of the first row is
    not highlighted, and the cell of a later row is highlighted exactly when
    it differs from the cell of the row before and that cell was not
    highlighted. *)
Theorem highlight_first_of_group_only (rows : list (list pyval))
    (cells : list string) :
  Forall2 (fun row c => list_getitem row column_to_check = inr (PStr c) /\
                        escape_free c = true) rows cells ->
  exists rows',
    highlight_alternate_groups py_repr rows column_to_check = inr rows' /\
    map (fun row => list_getitem row column_to_check) rows' =
    highlighted_cells None cells.
Proof.
  unfold highlight_alternate_groups.
  change (PNone, false) with (highlight_state None).
  generalize (@None (string * bool)).
  intros prev HF. revert prev.
  induction HF as [|row c rows cells [Hc Hfree] _ IH]; intros prev.
  - exists []. split; reflexivity.
  - destruct (highlight_row_text row c prev Hc Hfree) as (row' & Hr & Hcell).
    simpl. unfold bind, ret. rewrite Hr.
    match goal with
    | |- context [map_M _ rows (highlight_state ?q)] =>
        destruct (IH q) as (rows' & Hrs & Hcells)
    end.
    destruct (map_M _ rows _) as [[e|ys] st'']; simpl in Hrs;
      [discriminate|].
    injection Hrs as ->. exists (row' :: rows'). split; [reflexivity|].
    cbn [map]. injection Hcell as Hcell. rewrite Hcell, Hcells.
    unfold highlighted_cells. reflexivity.
Qed.

End HighlightTexts.

(** ** Exceptions while the devices are constructed *)

(** X12. Whatever exception the construction of a device raises (a field
    that is missing, a field that is not a dictionary), [main] does not
    catch it: the run ends with this exception in the state in which it was
    raised, the routers after this one are not queried and no row is
    produced. *)
Theorem construction_error_aborts_run (net : network)
    (routers1 routers2 : list string) (r : string) (gnmi_port : Z)
    (usr pwd : string) (skip : bool) (st st1 st2 : state)
    (ds : list SrlDevice) (e : exn) :
  map_M (construct net gnmi_port usr pwd skip) routers1 st = (inr ds, st1) ->
  construct net gnmi_port usr pwd skip r st1 = (inl e, st2) ->
  main_rows net (routers1 ++ r :: routers2) gnmi_port usr pwd skip st
  = (inl e, st2).
Proof.
  intros Hpre Hr. unfold main_rows, bind.
  change (fun router => SrlDevice_init net router gnmi_port DEFAULT_MODEL
                          DEFAULT_RELEASE usr pwd skip)
    with (construct net gnmi_port usr pwd skip).
  rewrite map_M_app, Hpre. cbn [map_M]. unfold bind. now rewrite Hr.
Qed.

(** ** The further properties at the samples *)

Lemma well_formed_response_flattened_witness :
  fst (_get_gnmi_info Sample.net_ok Sample.leaf1 evpn_path Sample.st0) =
  inr [Sample.evpn_instance "default" [Sample.evpn_no_oper];
       Sample.evpn_instance "mgmt" [Sample.evpn_up]].
Proof.
  assert (Forall2 notification_instances
            [Sample.notification
               [Sample.evpn_instance "default" [Sample.evpn_no_oper];
                Sample.evpn_instance "mgmt" [Sample.evpn_up]]]
            [[Sample.evpn_instance "default" [Sample.evpn_no_oper];
              Sample.evpn_instance "mgmt" [Sample.evpn_up]]]) as HF.
  { constructor; [|constructor].
    refine (notification_updates _ _ _
              [[Sample.evpn_instance "default" [Sample.evpn_no_oper];
                Sample.evpn_instance "mgmt" [Sample.evpn_up]]] _ _ _).
    - reflexivity.
    - reflexivity.
    - constructor; [|constructor].
      eapply update_with_key; reflexivity. }
  rewrite (well_formed_response_flattened Sample.net_ok Sample.leaf1
             evpn_path Sample.st0 Sample.evpn_response _ _ _
             eq_refl eq_refl eq_refl HF).
  reflexivity.
Defined.

Lemma evpn_records_in_source_order_witness :
  fst (get_bgp_evpn_info Sample.net_ok Sample.leaf1 Sample.st0) =
  inr [BgpEvpn.mk (PStr "default") (PInt 1) (PStr "enable") (PStr "vxlan1.1")
                  (PInt 10) (PInt 2) (PStr "no state");
       BgpEvpn.mk (PStr "mgmt") (PInt 1) (PStr "enable") (PStr "vxlan1.1")
                  (PInt 10) (PInt 2) (PStr "up")].
Proof.
  erewrite (evpn_records_in_source_order Sample.net_ok Sample.leaf1
              Sample.st0 _ _
              [[BgpEvpn.mk (PStr "default") (PInt 1) (PStr "enable")
                           (PStr "vxlan1.1") (PInt 10) (PInt 2)
                           (PStr "no state")];
               [BgpEvpn.mk (PStr "mgmt") (PInt 1) (PStr "enable")
                           (PStr "vxlan1.1") (PInt 10) (PInt 2)
                           (PStr "up")]]).
  - reflexivity.
  - reflexivity.
  - constructor; [|constructor; [|constructor]].
    + eapply evpn_some_bgp_instances; [reflexivity | reflexivity |].
      constructor; [|constructor]. eexists. split; reflexivity.
    + eapply evpn_some_bgp_instances; [reflexivity | reflexivity |].
      constructor; [|constructor]. eexists. split; reflexivity.
Defined.

Lemma vpn_records_in_source_order_witness :
  fst (get_bgp_vpn_info Sample.net_ok Sample.leaf1 Sample.st0) =
  inr [BgpVpn.mk (PStr "default") (PInt 1) PNone (PStr "target:65000:1")
                 (PStr "target:65000:2");
       BgpVpn.mk (PStr "vrf1") (PInt 1) PNone (PStr "target:65000:1")
                 (PStr "target:65000:2")].
Proof.
  erewrite (vpn_records_in_source_order Sample.net_ok Sample.leaf1
              Sample.st0 _ _
              [[BgpVpn.mk (PStr "default") (PInt 1) PNone
                          (PStr "target:65000:1") (PStr "target:65000:2")];
               [BgpVpn.mk (PStr "vrf1") (PInt 1) PNone
                          (PStr "target:65000:1") (PStr "target:65000:2")]]).
  - reflexivity.
  - reflexivity.
  - constructor; [|constructor; [|constructor]].
    + eapply vpn_some_bgp_instances; [reflexivity | reflexivity |].
      constructor; [|constructor]. eexists. split; reflexivity.
    + eapply vpn_some_bgp_instances; [reflexivity | reflexivity |].
      constructor; [|constructor]. eexists. split; reflexivity.
Defined.

Lemma vpn_field_not_a_dict_raises_witness :
  vpn_bgp_instance (Sample.vpn_instance "default" [])
                   (PDict Examples.vpn_null_rd) [] =
  (inl AttributeError, []).
Proof.
  apply (vpn_field_not_a_dict_raises (Sample.vpn_instance "default" [])
           (PStr "default") (PInt 1) PNone Examples.vpn_null_rd []).
  - reflexivity.
  - reflexivity.
  - exact I.
  - left. reflexivity.
Defined.

Lemma join_rows_in_evpn_order_witness :
  exists new,
    device_rows Sample.leaf_with_duplicates [] = (inr tt, new) /\
    map row_instance new = [PStr "default"].
Proof.
  destruct (join_rows_in_evpn_order Sample.leaf_with_duplicates [])
    as (new & Hrows & Horder & _).
  - repeat constructor.
  - repeat constructor.
  - exists new. split; [exact Hrows | exact Horder].
Defined.

Lemma unhashable_name_raises_witness :
  device_rows Examples.leaf_with_list_name [] = (inl TypeError, []).
Proof.
  apply (unhashable_name_raises Examples.leaf_with_list_name []).
  reflexivity.
Defined.

Lemma rows_in_roster_order_witness :
  exists ds st1,
    main_rows Sample.net_ok ["leaf1"; "leaf2"] 57400 "admin" "secret" true
              Sample.st0 = (inr (flat_map device_join ds), st1) /\
    map router ds = ["leaf1"; "leaf2"].
Proof.
  eexists. eexists.
  apply (rows_in_roster_order Sample.net_ok 57400 "admin" "secret" true
           ["leaf1"; "leaf2"] Sample.st0).
  - reflexivity.
  - repeat constructor.
Defined.

Lemma run_calls_two_per_router_witness :
  exists st1,
    calls st1 =
    flat_map (router_calls 57400 "admin" "secret") ["leaf1"; "leaf2"].
Proof.
  eexists.
  eapply (run_calls_two_per_router Sample.net_ok 57400 "admin" "secret" true
            ["leaf1"; "leaf2"] Sample.st0).
  reflexivity.
Defined.

Lemma highlight_changes_one_column_witness :
  exists rows',
    highlight_alternate_groups Examples.no_repr Examples.grouped_rows 1
    = inr rows' /\
    Forall2 (highlighted_or_same Examples.no_repr 1)
            Examples.grouped_rows rows'.
Proof.
  apply (highlight_changes_one_column Examples.no_repr 1
           Examples.grouped_rows).
  reflexivity.
Defined.

Lemma highlight_short_row_raises_witness :
  highlight_alternate_groups Examples.no_repr
    [Examples.text_row "default"; [PStr "leaf1"]] 1 = inl IndexError.
Proof.
  apply (highlight_short_row_raises Examples.no_repr 1).
  reflexivity.
Defined.

Lemma highlight_first_of_group_only_witness :
  exists rows',
    highlight_alternate_groups Examples.no_repr Examples.grouped_rows 1
    = inr rows' /\
    map (fun row => list_getitem row 1) rows' =
    [inr (PStr "default"); inr (PStr "default");
     inr (PStr (highlighted "mgmt")); inr (PStr "mgmt");
     inr (PStr (highlighted "vrf1"))].
Proof.
  apply (highlight_first_of_group_only Examples.no_repr 1
           Examples.grouped_rows
           ["default"; "default"; "mgmt"; "mgmt"; "vrf1"]).
  repeat constructor.
Defined.

Lemma construction_error_aborts_run_witness :
  exists st2,
    main_rows Examples.net_leaf2_null_rd ["leaf1"; "leaf2"; "leaf3"]
              57400 "admin" "secret" true Sample.st0
    = (inl AttributeError, st2).
Proof.
  eexists.
  eapply (construction_error_aborts_run Examples.net_leaf2_null_rd
           ["leaf1"] ["leaf3"] "leaf2" 57400 "admin" "secret" true
           Sample.st0).
  - vm_compute. reflexivity.
  - vm_compute. reflexivity.
Defined.
